(** * Import pipeline of BZ-BrokerCursor: a shallow embedding

    Modelled sources:
    - [src/core/scripts/import/import_reports.py]: [detect_broker_tiered],
      [detect_broker_from_filename], [extract_period_from_filename],
      [extract_account_from_filename] and the class [EnhancedReportImporter]
      ([is_exact_duplicate], [is_semantic_duplicate], [_parse_file_content],
      [move_to_duplicate_archive], [scan_inbox], [process_file_enhanced],
      [import_reports]);
    - [src/core/utils/file_manager.py]: [read_file_content],
      [is_supported_file], [safe_move_file], [scan_directory];
    - [src/core/parsers/__init__.py]: [PARSER_REGISTRY], [is_broker_supported],
      [get_parser];
    - [src/core/database/operations.py]: [insert_report], [get_report_by_hash],
      [get_report_by_triple], [log_import_file], [update_report_parsed_data].

    Python strings are sequences of code points, so [str] is [list Z].
    [str.lower], the [\d] class and [re.IGNORECASE] follow the Unicode 14.0
    tables of CPython 3.11. *)

From Stdlib Require Import ZArith List Bool String Ascii Lia.
Import ListNotations.
Local Open Scope Z_scope.

(** ** Python strings *)

Definition str := list Z.

(** ASCII literal to code points. *)
Fixpoint py (s : string) : str :=
  match s with
  | EmptyString => []
  | String a s' => Z.of_nat (nat_of_ascii a) :: py s'
  end.

Arguments py s%_string.

Fixpoint str_eqb (a b : str) : bool :=
  match a, b with
  | [], [] => true
  | x :: a', y :: b' => Z.eqb x y && str_eqb a' b'
  | _, _ => false
  end.

(** ** Unicode character data of CPython 3.11 (Unicode 14.0) *)

(** The simple lowercase mapping [_PyUnicode_ToLowercase] as runs
    [(lo, hi, step, delta)]: every [c] in [lo..hi] with [c - lo] a multiple
    of [step] maps to [c + delta]; the runs are sorted and disjoint, and a
    code point in no run maps to itself. *)

Definition lower_runs : list (Z * Z * Z * Z) := [
    (65, 90, 1, 32); (192, 214, 1, 32); (216, 222, 1, 32); (256, 302, 2, 1);
    (304, 304, 1, -199); (306, 310, 2, 1); (313, 327, 2, 1); (330, 374, 2, 1);
    (376, 376, 1, -121); (377, 381, 2, 1); (385, 385, 1, 210); (386, 388, 2, 1);
    (390, 390, 1, 206); (391, 391, 1, 1); (393, 394, 1, 205); (395, 395, 1, 1);
    (398, 398, 1, 79); (399, 399, 1, 202); (400, 400, 1, 203); (401, 401, 1, 1);
    (403, 403, 1, 205); (404, 404, 1, 207); (406, 406, 1, 211); (407, 407, 1, 209);
    (408, 408, 1, 1); (412, 412, 1, 211); (413, 413, 1, 213); (415, 415, 1, 214);
    (416, 420, 2, 1); (422, 422, 1, 218); (423, 423, 1, 1); (425, 425, 1, 218);
    (428, 428, 1, 1); (430, 430, 1, 218); (431, 431, 1, 1); (433, 434, 1, 217);
    (435, 437, 2, 1); (439, 439, 1, 219); (440, 440, 1, 1); (444, 444, 1, 1);
    (452, 452, 1, 2); (453, 453, 1, 1); (455, 455, 1, 2); (456, 456, 1, 1);
    (458, 458, 1, 2); (459, 475, 2, 1); (478, 494, 2, 1); (497, 497, 1, 2);
    (498, 500, 2, 1); (502, 502, 1, -97); (503, 503, 1, -56); (504, 542, 2, 1);
    (544, 544, 1, -130); (546, 562, 2, 1); (570, 570, 1, 10795); (571, 571, 1, 1);
    (573, 573, 1, -163); (574, 574, 1, 10792); (577, 577, 1, 1); (579, 579, 1, -195);
    (580, 580, 1, 69); (581, 581, 1, 71); (582, 590, 2, 1); (880, 882, 2, 1);
    (886, 886, 1, 1); (895, 895, 1, 116); (902, 902, 1, 38); (904, 906, 1, 37);
    (908, 908, 1, 64); (910, 911, 1, 63); (913, 929, 1, 32); (931, 939, 1, 32);
    (975, 975, 1, 8); (984, 1006, 2, 1); (1012, 1012, 1, -60); (1015, 1015, 1, 1);
    (1017, 1017, 1, -7); (1018, 1018, 1, 1); (1021, 1023, 1, -130); (1024, 1039, 1, 80);
    (1040, 1071, 1, 32); (1120, 1152, 2, 1); (1162, 1214, 2, 1); (1216, 1216, 1, 15);
    (1217, 1229, 2, 1); (1232, 1326, 2, 1); (1329, 1366, 1, 48); (4256, 4293, 1, 7264);
    (4295, 4295, 1, 7264); (4301, 4301, 1, 7264); (5024, 5103, 1, 38864); (5104, 5109, 1, 8);
    (7312, 7354, 1, -3008); (7357, 7359, 1, -3008); (7680, 7828, 2, 1); (7838, 7838, 1, -7615);
    (7840, 7934, 2, 1); (7944, 7951, 1, -8); (7960, 7965, 1, -8); (7976, 7983, 1, -8);
    (7992, 7999, 1, -8); (8008, 8013, 1, -8); (8025, 8031, 2, -8); (8040, 8047, 1, -8);
    (8072, 8079, 1, -8); (8088, 8095, 1, -8); (8104, 8111, 1, -8); (8120, 8121, 1, -8);
    (8122, 8123, 1, -74); (8124, 8124, 1, -9); (8136, 8139, 1, -86); (8140, 8140, 1, -9);
    (8152, 8153, 1, -8); (8154, 8155, 1, -100); (8168, 8169, 1, -8); (8170, 8171, 1, -112);
    (8172, 8172, 1, -7); (8184, 8185, 1, -128); (8186, 8187, 1, -126); (8188, 8188, 1, -9);
    (8486, 8486, 1, -7517); (8490, 8490, 1, -8383); (8491, 8491, 1, -8262); (8498, 8498, 1, 28);
    (8544, 8559, 1, 16); (8579, 8579, 1, 1); (9398, 9423, 1, 26); (11264, 11311, 1, 48);
    (11360, 11360, 1, 1); (11362, 11362, 1, -10743); (11363, 11363, 1, -3814); (11364, 11364, 1, -10727);
    (11367, 11371, 2, 1); (11373, 11373, 1, -10780); (11374, 11374, 1, -10749); (11375, 11375, 1, -10783);
    (11376, 11376, 1, -10782); (11378, 11378, 1, 1); (11381, 11381, 1, 1); (11390, 11391, 1, -10815);
    (11392, 11490, 2, 1); (11499, 11501, 2, 1); (11506, 11506, 1, 1); (42560, 42604, 2, 1);
    (42624, 42650, 2, 1); (42786, 42798, 2, 1); (42802, 42862, 2, 1); (42873, 42875, 2, 1);
    (42877, 42877, 1, -35332); (42878, 42886, 2, 1); (42891, 42891, 1, 1); (42893, 42893, 1, -42280);
    (42896, 42898, 2, 1); (42902, 42920, 2, 1); (42922, 42922, 1, -42308); (42923, 42923, 1, -42319);
    (42924, 42924, 1, -42315); (42925, 42925, 1, -42305); (42926, 42926, 1, -42308); (42928, 42928, 1, -42258);
    (42929, 42929, 1, -42282); (42930, 42930, 1, -42261); (42931, 42931, 1, 928); (42932, 42946, 2, 1);
    (42948, 42948, 1, -48); (42949, 42949, 1, -42307); (42950, 42950, 1, -35384); (42951, 42953, 2, 1);
    (42960, 42960, 1, 1); (42966, 42968, 2, 1); (42997, 42997, 1, 1); (65313, 65338, 1, 32);
    (66560, 66599, 1, 40); (66736, 66771, 1, 40); (66928, 66938, 1, 39); (66940, 66954, 1, 39);
    (66956, 66962, 1, 39); (66964, 66965, 1, 39); (68736, 68786, 1, 64); (71840, 71871, 1, 32);
    (93760, 93791, 1, 32); (125184, 125217, 1, 34) ].

(** The [Case_Ignorable] code points, as sorted disjoint ranges [(lo, hi)]. *)

Definition case_ignorable_ranges : list (Z * Z) := [
    (39, 39); (46, 46); (58, 58); (94, 94); (96, 96); (168, 168);
    (173, 173); (175, 175); (180, 180); (183, 184); (688, 879); (884, 885);
    (890, 890); (900, 901); (903, 903); (1155, 1161); (1369, 1369); (1375, 1375);
    (1425, 1469); (1471, 1471); (1473, 1474); (1476, 1477); (1479, 1479); (1524, 1524);
    (1536, 1541); (1552, 1562); (1564, 1564); (1600, 1600); (1611, 1631); (1648, 1648);
    (1750, 1757); (1759, 1768); (1770, 1773); (1807, 1807); (1809, 1809); (1840, 1866);
    (1958, 1968); (2027, 2037); (2042, 2042); (2045, 2045); (2070, 2093); (2137, 2139);
    (2184, 2184); (2192, 2193); (2200, 2207); (2249, 2306); (2362, 2362); (2364, 2364);
    (2369, 2376); (2381, 2381); (2385, 2391); (2402, 2403); (2417, 2417); (2433, 2433);
    (2492, 2492); (2497, 2500); (2509, 2509); (2530, 2531); (2558, 2558); (2561, 2562);
    (2620, 2620); (2625, 2626); (2631, 2632); (2635, 2637); (2641, 2641); (2672, 2673);
    (2677, 2677); (2689, 2690); (2748, 2748); (2753, 2757); (2759, 2760); (2765, 2765);
    (2786, 2787); (2810, 2815); (2817, 2817); (2876, 2876); (2879, 2879); (2881, 2884);
    (2893, 2893); (2901, 2902); (2914, 2915); (2946, 2946); (3008, 3008); (3021, 3021);
    (3072, 3072); (3076, 3076); (3132, 3132); (3134, 3136); (3142, 3144); (3146, 3149);
    (3157, 3158); (3170, 3171); (3201, 3201); (3260, 3260); (3263, 3263); (3270, 3270);
    (3276, 3277); (3298, 3299); (3328, 3329); (3387, 3388); (3393, 3396); (3405, 3405);
    (3426, 3427); (3457, 3457); (3530, 3530); (3538, 3540); (3542, 3542); (3633, 3633);
    (3636, 3642); (3654, 3662); (3761, 3761); (3764, 3772); (3782, 3782); (3784, 3789);
    (3864, 3865); (3893, 3893); (3895, 3895); (3897, 3897); (3953, 3966); (3968, 3972);
    (3974, 3975); (3981, 3991); (3993, 4028); (4038, 4038); (4141, 4144); (4146, 4151);
    (4153, 4154); (4157, 4158); (4184, 4185); (4190, 4192); (4209, 4212); (4226, 4226);
    (4229, 4230); (4237, 4237); (4253, 4253); (4348, 4348); (4957, 4959); (5906, 5908);
    (5938, 5939); (5970, 5971); (6002, 6003); (6068, 6069); (6071, 6077); (6086, 6086);
    (6089, 6099); (6103, 6103); (6109, 6109); (6155, 6159); (6211, 6211); (6277, 6278);
    (6313, 6313); (6432, 6434); (6439, 6440); (6450, 6450); (6457, 6459); (6679, 6680);
    (6683, 6683); (6742, 6742); (6744, 6750); (6752, 6752); (6754, 6754); (6757, 6764);
    (6771, 6780); (6783, 6783); (6823, 6823); (6832, 6862); (6912, 6915); (6964, 6964);
    (6966, 6970); (6972, 6972); (6978, 6978); (7019, 7027); (7040, 7041); (7074, 7077);
    (7080, 7081); (7083, 7085); (7142, 7142); (7144, 7145); (7149, 7149); (7151, 7153);
    (7212, 7219); (7222, 7223); (7288, 7293); (7376, 7378); (7380, 7392); (7394, 7400);
    (7405, 7405); (7412, 7412); (7416, 7417); (7468, 7530); (7544, 7544); (7579, 7679);
    (8125, 8125); (8127, 8129); (8141, 8143); (8157, 8159); (8173, 8175); (8189, 8190);
    (8203, 8207); (8216, 8217); (8228, 8228); (8231, 8231); (8234, 8238); (8288, 8292);
    (8294, 8303); (8305, 8305); (8319, 8319); (8336, 8348); (8400, 8432); (11388, 11389);
    (11503, 11505); (11631, 11631); (11647, 11647); (11744, 11775); (11823, 11823); (12293, 12293);
    (12330, 12333); (12337, 12341); (12347, 12347); (12441, 12446); (12540, 12542); (40981, 40981);
    (42232, 42237); (42508, 42508); (42607, 42610); (42612, 42621); (42623, 42623); (42652, 42655);
    (42736, 42737); (42752, 42785); (42864, 42864); (42888, 42890); (42994, 42996); (43000, 43001);
    (43010, 43010); (43014, 43014); (43019, 43019); (43045, 43046); (43052, 43052); (43204, 43205);
    (43232, 43249); (43263, 43263); (43302, 43309); (43335, 43345); (43392, 43394); (43443, 43443);
    (43446, 43449); (43452, 43453); (43471, 43471); (43493, 43494); (43561, 43566); (43569, 43570);
    (43573, 43574); (43587, 43587); (43596, 43596); (43632, 43632); (43644, 43644); (43696, 43696);
    (43698, 43700); (43703, 43704); (43710, 43711); (43713, 43713); (43741, 43741); (43756, 43757);
    (43763, 43764); (43766, 43766); (43867, 43871); (43881, 43883); (44005, 44005); (44008, 44008);
    (44013, 44013); (64286, 64286); (64434, 64450); (65024, 65039); (65043, 65043); (65056, 65071);
    (65106, 65106); (65109, 65109); (65279, 65279); (65287, 65287); (65294, 65294); (65306, 65306);
    (65342, 65342); (65344, 65344); (65392, 65392); (65438, 65439); (65507, 65507); (65529, 65531);
    (66045, 66045); (66272, 66272); (66422, 66426); (67456, 67461); (67463, 67504); (67506, 67514);
    (68097, 68099); (68101, 68102); (68108, 68111); (68152, 68154); (68159, 68159); (68325, 68326);
    (68900, 68903); (69291, 69292); (69446, 69456); (69506, 69509); (69633, 69633); (69688, 69702);
    (69744, 69744); (69747, 69748); (69759, 69761); (69811, 69814); (69817, 69818); (69821, 69821);
    (69826, 69826); (69837, 69837); (69888, 69890); (69927, 69931); (69933, 69940); (70003, 70003);
    (70016, 70017); (70070, 70078); (70089, 70092); (70095, 70095); (70191, 70193); (70196, 70196);
    (70198, 70199); (70206, 70206); (70367, 70367); (70371, 70378); (70400, 70401); (70459, 70460);
    (70464, 70464); (70502, 70508); (70512, 70516); (70712, 70719); (70722, 70724); (70726, 70726);
    (70750, 70750); (70835, 70840); (70842, 70842); (70847, 70848); (70850, 70851); (71090, 71093);
    (71100, 71101); (71103, 71104); (71132, 71133); (71219, 71226); (71229, 71229); (71231, 71232);
    (71339, 71339); (71341, 71341); (71344, 71349); (71351, 71351); (71453, 71455); (71458, 71461);
    (71463, 71467); (71727, 71735); (71737, 71738); (71995, 71996); (71998, 71998); (72003, 72003);
    (72148, 72151); (72154, 72155); (72160, 72160); (72193, 72202); (72243, 72248); (72251, 72254);
    (72263, 72263); (72273, 72278); (72281, 72283); (72330, 72342); (72344, 72345); (72752, 72758);
    (72760, 72765); (72767, 72767); (72850, 72871); (72874, 72880); (72882, 72883); (72885, 72886);
    (73009, 73014); (73018, 73018); (73020, 73021); (73023, 73029); (73031, 73031); (73104, 73105);
    (73109, 73109); (73111, 73111); (73459, 73460); (78896, 78904); (92912, 92916); (92976, 92982);
    (92992, 92995); (94031, 94031); (94095, 94111); (94176, 94177); (94179, 94180); (110576, 110579);
    (110581, 110587); (110589, 110590); (113821, 113822); (113824, 113827); (118528, 118573); (118576, 118598);
    (119143, 119145); (119155, 119170); (119173, 119179); (119210, 119213); (119362, 119364); (121344, 121398);
    (121403, 121452); (121461, 121461); (121476, 121476); (121499, 121503); (121505, 121519); (122880, 122886);
    (122888, 122904); (122907, 122913); (122915, 122916); (122918, 122922); (123184, 123197); (123566, 123566);
    (123628, 123631); (125136, 125142); (125252, 125259); (127995, 127999); (917505, 917505); (917536, 917631);
    (917760, 917999) ].

(** The [Cased] code points ([_PyUnicode_IsCased]). *)

Definition cased_ranges : list (Z * Z) := [
    (65, 90); (97, 122); (170, 170); (181, 181); (186, 186); (192, 214);
    (216, 246); (248, 442); (444, 447); (452, 659); (661, 696); (704, 705);
    (736, 740); (837, 837); (880, 883); (886, 887); (890, 893); (895, 895);
    (902, 902); (904, 906); (908, 908); (910, 929); (931, 1013); (1015, 1153);
    (1162, 1327); (1329, 1366); (1376, 1416); (4256, 4293); (4295, 4295); (4301, 4301);
    (4304, 4346); (4349, 4351); (5024, 5109); (5112, 5117); (7296, 7304); (7312, 7354);
    (7357, 7359); (7424, 7615); (7680, 7957); (7960, 7965); (7968, 8005); (8008, 8013);
    (8016, 8023); (8025, 8025); (8027, 8027); (8029, 8029); (8031, 8061); (8064, 8116);
    (8118, 8124); (8126, 8126); (8130, 8132); (8134, 8140); (8144, 8147); (8150, 8155);
    (8160, 8172); (8178, 8180); (8182, 8188); (8305, 8305); (8319, 8319); (8336, 8348);
    (8450, 8450); (8455, 8455); (8458, 8467); (8469, 8469); (8473, 8477); (8484, 8484);
    (8486, 8486); (8488, 8488); (8490, 8493); (8495, 8500); (8505, 8505); (8508, 8511);
    (8517, 8521); (8526, 8526); (8544, 8575); (8579, 8580); (9398, 9449); (11264, 11492);
    (11499, 11502); (11506, 11507); (11520, 11557); (11559, 11559); (11565, 11565); (42560, 42605);
    (42624, 42653); (42786, 42887); (42891, 42894); (42896, 42954); (42960, 42961); (42963, 42963);
    (42965, 42969); (42997, 42998); (43000, 43002); (43824, 43866); (43868, 43880); (43888, 43967);
    (64256, 64262); (64275, 64279); (65313, 65338); (65345, 65370); (66560, 66639); (66736, 66771);
    (66776, 66811); (66928, 66938); (66940, 66954); (66956, 66962); (66964, 66965); (66967, 66977);
    (66979, 66993); (66995, 67001); (67003, 67004); (67456, 67456); (67459, 67461); (67463, 67504);
    (67506, 67514); (68736, 68786); (68800, 68850); (71840, 71903); (93760, 93823); (119808, 119892);
    (119894, 119964); (119966, 119967); (119970, 119970); (119973, 119974); (119977, 119980); (119982, 119993);
    (119995, 119995); (119997, 120003); (120005, 120069); (120071, 120074); (120077, 120084); (120086, 120092);
    (120094, 120121); (120123, 120126); (120128, 120132); (120134, 120134); (120138, 120144); (120146, 120485);
    (120488, 120512); (120514, 120538); (120540, 120570); (120572, 120596); (120598, 120628); (120630, 120654);
    (120656, 120686); (120688, 120712); (120714, 120744); (120746, 120770); (120772, 120779); (122624, 122633);
    (122635, 122654); (125184, 125251); (127280, 127305); (127312, 127337); (127344, 127369) ].

(** [_sre.unicode_iscased]: the code points whose simple lowercase or
    uppercase differs from themselves. *)

Definition sre_cased_ranges : list (Z * Z) := [
    (65, 90); (97, 122); (181, 181); (192, 214); (216, 246); (248, 311);
    (313, 396); (398, 410); (412, 425); (428, 441); (444, 445); (447, 447);
    (452, 544); (546, 563); (570, 596); (598, 599); (601, 601); (603, 604);
    (608, 609); (611, 611); (613, 614); (616, 620); (623, 623); (625, 626);
    (629, 629); (637, 637); (640, 640); (642, 643); (647, 652); (658, 658);
    (669, 670); (837, 837); (880, 883); (886, 887); (891, 893); (895, 895);
    (902, 902); (904, 906); (908, 908); (910, 929); (931, 977); (981, 1013);
    (1015, 1019); (1021, 1153); (1162, 1327); (1329, 1366); (1377, 1415); (4256, 4293);
    (4295, 4295); (4301, 4301); (4304, 4346); (4349, 4351); (5024, 5109); (5112, 5117);
    (7296, 7304); (7312, 7354); (7357, 7359); (7545, 7545); (7549, 7549); (7566, 7566);
    (7680, 7835); (7838, 7838); (7840, 7957); (7960, 7965); (7968, 8005); (8008, 8013);
    (8016, 8023); (8025, 8025); (8027, 8027); (8029, 8029); (8031, 8061); (8064, 8116);
    (8118, 8124); (8126, 8126); (8130, 8132); (8134, 8140); (8144, 8147); (8150, 8155);
    (8160, 8172); (8178, 8180); (8182, 8188); (8486, 8486); (8490, 8491); (8498, 8498);
    (8526, 8526); (8544, 8575); (8579, 8580); (9398, 9449); (11264, 11376); (11378, 11379);
    (11381, 11382); (11390, 11491); (11499, 11502); (11506, 11507); (11520, 11557); (11559, 11559);
    (11565, 11565); (42560, 42605); (42624, 42651); (42786, 42799); (42802, 42863); (42873, 42887);
    (42891, 42893); (42896, 42900); (42902, 42926); (42928, 42954); (42960, 42961); (42966, 42969);
    (42997, 42998); (43859, 43859); (43888, 43967); (64256, 64262); (64275, 64279); (65313, 65338);
    (65345, 65370); (66560, 66639); (66736, 66771); (66776, 66811); (66928, 66938); (66940, 66954);
    (66956, 66962); (66964, 66965); (66967, 66977); (66979, 66993); (66995, 67001); (67003, 67004);
    (68736, 68786); (68800, 68850); (71840, 71903); (93760, 93823); (125184, 125251) ].

(** [Py_UNICODE_ISDECIMAL], which [_sre] uses for [\d] in [str] patterns. *)

Definition decimal_ranges : list (Z * Z) := [
    (48, 57); (1632, 1641); (1776, 1785); (1984, 1993); (2406, 2415); (2534, 2543);
    (2662, 2671); (2790, 2799); (2918, 2927); (3046, 3055); (3174, 3183); (3302, 3311);
    (3430, 3439); (3558, 3567); (3664, 3673); (3792, 3801); (3872, 3881); (4160, 4169);
    (4240, 4249); (6112, 6121); (6160, 6169); (6470, 6479); (6608, 6617); (6784, 6793);
    (6800, 6809); (6992, 7001); (7088, 7097); (7232, 7241); (7248, 7257); (42528, 42537);
    (43216, 43225); (43264, 43273); (43472, 43481); (43504, 43513); (43600, 43609); (44016, 44025);
    (65296, 65305); (66720, 66729); (68912, 68921); (69734, 69743); (69872, 69881); (69942, 69951);
    (70096, 70105); (70384, 70393); (70736, 70745); (70864, 70873); (71248, 71257); (71360, 71369);
    (71472, 71481); (71904, 71913); (72016, 72025); (72784, 72793); (73040, 73049); (73120, 73129);
    (92768, 92777); (92864, 92873); (93008, 93017); (120782, 120831); (123200, 123209); (123632, 123641);
    (125264, 125273); (130032, 130041) ].

(** [re._casefix._EXTRA_CASES]: the further characters a lowercase
    character matches under [re.IGNORECASE]. *)

Definition extra_cases : list (Z * list Z) := [
    (105, [305]); (115, [383]); (181, [956]); (305, [105]);
    (383, [115]); (837, [953; 8126]); (912, [8147]); (944, [8163]);
    (946, [976]); (949, [1013]); (952, [977]); (953, [837; 8126]);
    (954, [1008]); (956, [181]); (960, [982]); (961, [1009]);
    (962, [963]); (963, [962]); (966, [981]); (976, [946]);
    (977, [952]); (981, [966]); (982, [960]); (1008, [954]);
    (1009, [961]); (1013, [949]); (1074, [7296]); (1076, [7297]);
    (1086, [7298]); (1089, [7299]); (1090, [7300; 7301]); (1098, [7302]);
    (1123, [7303]); (7296, [1074]); (7297, [1076]); (7298, [1086]);
    (7299, [1089]); (7300, [1090; 7301]); (7301, [1090; 7300]); (7302, [1098]);
    (7303, [1123]); (7304, [42571]); (7777, [7835]); (7835, [7777]);
    (8126, [837; 953]); (8147, [912]); (8163, [944]); (42571, [7304]);
    (64261, [64262]); (64262, [64261]) ].

Fixpoint run_lookup (c : Z) (rs : list (Z * Z * Z * Z)) : Z :=
  match rs with
  | [] => c
  | (lo, hi, step, delta) :: rs' =>
      if c <? lo then c
      else if (c <=? hi) && Z.eqb (Z.modulo (c - lo) step) 0 then c + delta
      else run_lookup c rs'
  end.

(** [_PyUnicode_ToLowercase] *)
Definition to_lower (c : Z) : Z := run_lookup c lower_runs.

Fixpoint in_ranges (c : Z) (rs : list (Z * Z)) : bool :=
  match rs with
  | [] => false
  | (lo, hi) :: rs' => if c <? lo then false else if c <=? hi then true else in_ranges c rs'
  end.

Definition case_ignorable (c : Z) : bool := in_ranges c case_ignorable_ranges.
Definition is_cased (c : Z) : bool := in_ranges c cased_ranges.

Fixpoint first_not_ignorable (s : str) : option Z :=
  match s with
  | [] => None
  | c :: s' => if case_ignorable c then first_not_ignorable s' else Some c
  end.

(** [handle_capital_sigma]: U+03A3 lowers to the final form U+03C2 when the
    nearest character before it that is not case-ignorable is cased, and no
    cased character follows it after case-ignorable ones.  [before_rev] is
    the text before it, nearest first. *)
Definition final_sigma (before_rev after : str) : bool :=
  match first_not_ignorable before_rev with
  | Some c =>
      is_cased c && match first_not_ignorable after with
                    | None => true
                    | Some c' => negb (is_cased c')
                    end
  | None => false
  end.

(** [str.lower] ([do_lower] / [lower_ucs4]): U+03A3 by [handle_capital_sigma],
    U+0130 to its full lowercase mapping [i] U+0307, every other code point by
    the simple mapping (which is its full mapping). *)
Fixpoint lower_go (before_rev s : str) : str :=
  match s with
  | [] => []
  | c :: s' =>
      (if Z.eqb c 931 then [if final_sigma before_rev s' then 962 else 963]
       else if Z.eqb c 304 then [105; 775]
       else [to_lower c]) ++ lower_go (c :: before_rev) s'
  end.

Definition lower (s : str) : str := lower_go [] s.

Fixpoint startswith (s p : str) : bool :=
  match p, s with
  | [], _ => true
  | x :: p', y :: s' => Z.eqb x y && startswith s' p'
  | _ :: _, [] => false
  end.

(** Python [p in s] for strings. *)
Fixpoint contains (s p : str) : bool :=
  startswith s p ||
  match s with
  | [] => false
  | _ :: s' => contains s' p
  end.

Definition str_in (x : str) (l : list str) : bool := existsb (str_eqb x) l.

(** [str.rfind(ch)]: index of the last occurrence, or -1. *)
Fixpoint rfind_from (i : Z) (ch : Z) (s : str) : Z :=
  match s with
  | [] => -1
  | c :: s' =>
      let r := rfind_from (i + 1) ch s' in
      if Z.eqb r (-1) then (if Z.eqb c ch then i else -1) else r
  end.

Definition rfind (ch : Z) (s : str) : Z := rfind_from 0 ch s.

(** [PurePath.suffix] and [PurePath.stem]:
    [i = name.rfind('.'); if 0 < i < len(name) - 1: name[i:] else ''] *)
Definition suffix (name : str) : str :=
  let i := rfind 46 name in
  if (0 <? i) && (i <? Z.of_nat (List.length name) - 1)
  then skipn (Z.to_nat i) name else [].

Definition stem (name : str) : str :=
  let i := rfind 46 name in
  if (0 <? i) && (i <? Z.of_nat (List.length name) - 1)
  then firstn (Z.to_nat i) name else name.

(** ** BrokerClassifier: [detect_broker_tiered] *)

(** One value of [brokers_patterns.json]; a key absent from the JSON object
    reads as [[]] through [config.get(key, [])]. *)
Record broker_config := {
  filename_patterns : list str;
  html_patterns : list str
}.

Definition pattern_table := list (str * broker_config).

Definition unknown : str := py "unknown".

(** Tier 1: [for broker, config in patterns.items(): if broker == 'unknown':
    continue; for pattern in filename_patterns: if pattern.lower() in
    filename_lower: return broker]. *)
Fixpoint tier_filename (filename_lower : str) (ps : pattern_table) : option str :=
  match ps with
  | [] => None
  | (broker, config) :: ps' =>
      if str_eqb broker unknown then tier_filename filename_lower ps'
      else if existsb (fun p => contains filename_lower (lower p))
                      (filename_patterns config)
      then Some broker
      else tier_filename filename_lower ps'
  end.

(** Tier 2: the same scan over [html_patterns] against the lowered content. *)
Fixpoint tier_html (content_lower : str) (ps : pattern_table) : option str :=
  match ps with
  | [] => None
  | (broker, config) :: ps' =>
      if str_eqb broker unknown then tier_html content_lower ps'
      else if existsb (fun p => contains content_lower (lower p))
                      (html_patterns config)
      then Some broker
      else tier_html content_lower ps'
  end.

Definition detect_broker_tiered (file_name content : str) (patterns : pattern_table) : str :=
  let filename_lower := lower file_name in
  let content_lower := lower content in
  match tier_filename filename_lower patterns with
  | Some b => b
  | None =>
      match tier_html content_lower patterns with
      | Some b => b
      | None => unknown
      end
  end.

(** [detect_broker_from_filename] (legacy, used by the broker filter). *)
Definition detect_broker_from_filename (filename : str) : str :=
  let filename_lower := lower filename in
  if contains filename_lower (py "4000t49") || contains filename_lower (py "s000t49")
  then py "tinkoff"
  else if contains filename_lower (py "sber")
          || contains filename_lower [1089; 1073; 1077; 1088]
  then py "sber"
  else if contains filename_lower (py "vtb")
          || contains filename_lower [1074; 1090; 1073]
  then py "vtb"
  else unknown.

(** ** FilenameMetadataExtractor *)

(** [\d] in a [str] pattern: a Unicode decimal digit ([0]-[9], and e.g.
    the Arabic-Indic digits U+0660..U+0669). *)
Definition is_digit (c : Z) : bool := in_ranges c decimal_ranges.
Arguments is_digit c : simpl never.

(** [re.search(r'(\d{4})-(\d{2})', filename)]: leftmost match, groups. *)
Definition match_yyyy_mm (s : str) : option (str * str) :=
  match s with
  | y1 :: y2 :: y3 :: y4 :: m :: d1 :: d2 :: _ =>
      if forallb is_digit [y1; y2; y3; y4] && Z.eqb m 45
         && is_digit d1 && is_digit d2
      then Some ([y1; y2; y3; y4], [d1; d2]) else None
  | _ => None
  end.

Fixpoint search_yyyy_mm (s : str) : option (str * str) :=
  match match_yyyy_mm s with
  | Some g => Some g
  | None => match s with [] => None | _ :: s' => search_yyyy_mm s' end
  end.

(** [re.search(r'(\d{4})', filename)]. *)
Definition match_year (s : str) : option str :=
  match s with
  | y1 :: y2 :: y3 :: y4 :: _ =>
      if forallb is_digit [y1; y2; y3; y4] then Some [y1; y2; y3; y4] else None
  | _ => None
  end.

Fixpoint search_year (s : str) : option str :=
  match match_year s with
  | Some y => Some y
  | None => match s with [] => None | _ :: s' => search_year s' end
  end.

(** The [if/elif] chain of [extract_period_from_filename], in source order:
    (number token, Russian month name, month). *)
Definition month_guesses : list (str * str * str) :=
  [ (py "03", [1084; 1072; 1088; 1090], py "03");
    (py "04", [1072; 1087; 1088; 1077; 1083; 1100], py "04");
    (py "05", [1084; 1072; 1081], py "05");
    (py "06", [1080; 1102; 1085; 1100], py "06");
    (py "07", [1080; 1102; 1083; 1100], py "07");
    (py "08", [1072; 1074; 1075; 1091; 1089; 1090], py "08");
    (py "10", [1086; 1082; 1090; 1103; 1073; 1088; 1100], py "10");
    (py "11", [1085; 1086; 1103; 1073; 1088; 1100], py "11");
    (py "12", [1076; 1077; 1082; 1072; 1073; 1088; 1100], py "12") ].

Fixpoint guess_month (filename : str) (gs : list (str * str * str)) : option str :=
  match gs with
  | [] => None
  | (num, name, mm) :: gs' =>
      if contains filename num || contains (lower filename) name then Some mm
      else guess_month filename gs'
  end.

Definition extract_period_from_filename (filename : str) : str :=
  match search_yyyy_mm filename with
  | Some (y, m) => y ++ [45] ++ m
  | None =>
      match search_year filename with
      | Some year =>
          match guess_month filename month_guesses with
          | Some mm => year ++ [45] ++ mm
          | None => unknown
          end
      | None => unknown
      end
  end.

Definition extract_account_from_filename (filename : str) : option str :=
  if contains filename (py "4000T49") then Some (py "4000T49")
  else if contains filename (py "S000T49") then Some (py "S000T49")
  else None.

(** ** Values, parsed data and the parser registry *)

(** The Python values the pipeline inspects: strings, [None], and values
    that are not sequences (numbers, [date] objects, dicts, ...), on which
    [[:7]] raises.  A list, tuple or bytes value, which [[:7]] would slice,
    is outside this model. *)
Inductive pyval := VStr (s : str) | VNone | VOther.

(** SQL [IS NOT DISTINCT FROM] as [get_report_by_triple] uses it on the
    account: [None] matches [NULL]; a value of another type makes the query
    fail, and the method then returns [None] (no match). *)
Definition pyval_eqb (a b : pyval) : bool :=
  match a, b with
  | VStr x, VStr y => str_eqb x y
  | VNone, VNone => true
  | _, _ => false
  end.

(** A [dict] returned by a parser: keys in insertion order. *)
Definition pydict := list (str * pyval).

Fixpoint dict_get (d : pydict) (k : str) : option pyval :=
  match d with
  | [] => None
  | (k', v) :: d' => if str_eqb k k' then Some v else dict_get d' k
  end.

Definition dict_has (d : pydict) (k : str) : bool :=
  match dict_get d k with Some _ => true | None => false end.

(** [d.get(k, default)] *)
Definition dict_get_default (d : pydict) (k : str) (default : pyval) : pyval :=
  match dict_get d k with Some v => v | None => default end.

(** Truthiness of a dict. *)
Definition dict_truthy (d : pydict) : bool :=
  match d with [] => false | _ => true end.

(** [value[:7]]; slicing [None] or a [date] raises [TypeError]. *)
Definition slice7 (v : pyval) : option str :=
  match v with VStr s => Some (firstn 7 s) | _ => None end.

Definition k_period_start : str := py "period_start".
Definition k_account_number : str := py "account_number".

(** What [parser.parse(content)] does: raise, or return a value that is a
    dict ([Some d]) or not ([None]). *)
Inductive parse_result := ParseRaises | ParseReturns (v : option pydict).

(** A parser class: whether [parser_class()] succeeds, and its [parse]. *)
Record parser := {
  instantiate_ok : bool;
  parse : str -> parse_result
}.

(** [PARSER_REGISTRY]: broker name to parser class. *)
Definition registry := list (str * parser).

Fixpoint registry_get (reg : registry) (broker : str) : option parser :=
  match reg with
  | [] => None
  | (b, p) :: reg' => if str_eqb broker b then Some p else registry_get reg' broker
  end.

(** [is_broker_supported]: [broker in PARSER_REGISTRY]. *)
Definition is_broker_supported (reg : registry) (broker : str) : bool :=
  match registry_get reg broker with Some _ => true | None => false end.

(** ** Persistent store, file system, audit trail *)

Inductive processing_status := Raw | Parsed | Error.

(** A row of [broker_reports] (columns the pipeline decides on). *)
Record report := {
  r_id : Z;
  r_broker : str;
  r_account : pyval;
  r_period : str;
  r_file_name : str;
  r_hash : str;
  r_parsed_data : option pydict;
  r_status : processing_status
}.

(** The inbox and the four archive roots of [Config]. *)
Inductive dir := Inbox | Imported | ExactDuplicates | LogicalDuplicates | Unrecognized.

Definition dir_eqb (a b : dir) : bool :=
  match a, b with
  | Inbox, Inbox | Imported, Imported | ExactDuplicates, ExactDuplicates
  | LogicalDuplicates, LogicalDuplicates | Unrecognized, Unrecognized => true
  | _, _ => false
  end.

(** A directory entry: its name, [st_size], [is_file()], and the text
    [open(..., encoding='utf-8').read()] produces ([None]: decoding fails). *)
Record file := {
  fname : str;
  fsize : Z;
  fregular : bool;
  ftext : option str
}.

Definition filesystem := list (dir * file).

Definition at_path (d : dir) (n : str) (e : dir * file) : bool :=
  dir_eqb (fst e) d && str_eqb (fname (snd e)) n.

Definition find_file (fs : filesystem) (d : dir) (n : str) : option file :=
  match find (at_path d n) fs with Some (_, f) => Some f | None => None end.

Definition rename_file (f : file) (n : str) : file :=
  {| fname := n; fsize := fsize f; fregular := fregular f; ftext := ftext f |}.

(** POSIX [Path.rename(src, dst)]: an existing [dst] is replaced silently;
    a missing source raises. *)
Definition fs_rename (fs : filesystem) (src : dir) (n : str) (dst : dir) (n' : str)
  : option filesystem :=
  match find_file fs src n with
  | None => None
  | Some f =>
      Some (filter (fun e => negb (at_path src n e) && negb (at_path dst n' e)) fs
            ++ [(dst, rename_file f n')])
  end.

(** The effects of the pipeline, in the order they are attempted.
    [ADbLog] is a row of [import_log] ([log_import_file]) with whether its
    commit succeeded; [AEvent] a line of [diagnostics/import_duplicates.log]
    ([log_import_event]). *)
Inductive action :=
| AHashQuery (h : str)
| ATripleQuery (broker : str) (account : pyval) (period : str)
| ASupportCheck (broker : str)
| AGetParser (broker : str)
| AParse (broker : str)
| ARename (src dst : dir) (name : str) (ok : bool)
| AInsert (name : str) (ok : bool)
| AUpdateParsed (id : Z) (ok : bool)
| ADbLog (status : str) (name : str) (ok : bool)
| AEvent (kind : str) (name : str)
| AOpLog.

(** Outcomes of the fallible external operations for one file: whether
    [Path.rename] succeeds, whether the INSERT, the UPDATE and the
    [import_log] INSERT commit. *)
Record oracle := {
  rename_ok : bool;
  insert_ok : bool;
  update_ok : bool;
  dblog_ok : bool;
  (** whether the [SELECT] of [get_report_by_hash] succeeds *)
  hash_lookup_ok : bool;
  (** whether the [SELECT] of [get_report_by_triple] succeeds, at the
      filename-based check of STAGE 5 and at the re-check after parsing *)
  filename_lookup_ok : bool;
  recheck_lookup_ok : bool
}.

Record stats := {
  files_processed : Z;
  files_success : Z;
  files_failed : Z;
  files_skipped : Z;
  unknown_broker : Z;
  errors : list str
}.

Record state := {
  st_fs : filesystem;
  st_reports : list report;
  st_trace : list action;
  st_stats : stats
}.

Definition with_fs (fs : filesystem) (s : state) : state :=
  {| st_fs := fs; st_reports := st_reports s; st_trace := st_trace s; st_stats := st_stats s |}.
Definition with_reports (rs : list report) (s : state) : state :=
  {| st_fs := st_fs s; st_reports := rs; st_trace := st_trace s; st_stats := st_stats s |}.
Definition with_trace (tr : list action) (s : state) : state :=
  {| st_fs := st_fs s; st_reports := st_reports s; st_trace := tr; st_stats := st_stats s |}.
Definition with_stats (t : stats) (s : state) : state :=
  {| st_fs := st_fs s; st_reports := st_reports s; st_trace := st_trace s; st_stats := t |}.

(** ** A state and exception monad *)

(** [None]: a Python exception escaped (the state reached is kept). *)
Definition M (A : Type) : Type := state -> option A * state.

Definition ret {A} (a : A) : M A := fun s => (Some a, s).
Definition bind {A B} (m : M A) (f : A -> M B) : M B :=
  fun s => match m s with
           | (Some a, s') => f a s'
           | (None, s') => (None, s')
           end.
Definition raise {A} : M A := fun s => (None, s).
(** [try: m except Exception: h] *)
Definition try_except {A} (m : M A) (h : M A) : M A :=
  fun s => match m s with
           | (None, s') => h s'
           | r => r
           end.
Definition get : M state := fun s => (Some s, s).
Definition modify (f : state -> state) : M unit := fun s => (Some tt, f s).

Notation "x <- m ;; k" := (bind m (fun x => k))
  (at level 61, m at next level, right associativity).
Notation "' p <- m ;; k" := (bind m (fun x => match x with p => k end))
  (at level 61, p pattern, m at next level, right associativity).
Notation "m ;;; k" := (bind m (fun _ => k))
  (at level 61, right associativity).

Definition emit (a : action) : M unit :=
  modify (fun s => with_trace (st_trace s ++ [a]) s).

Definition bump (f : stats -> stats) : M unit :=
  modify (fun s => with_stats (f (st_stats s)) s).

Definition inc_failed (t : stats) : stats :=
  {| files_processed := files_processed t; files_success := files_success t;
     files_failed := files_failed t + 1; files_skipped := files_skipped t;
     unknown_broker := unknown_broker t; errors := errors t |}.
Definition inc_success (t : stats) : stats :=
  {| files_processed := files_processed t; files_success := files_success t + 1;
     files_failed := files_failed t; files_skipped := files_skipped t;
     unknown_broker := unknown_broker t; errors := errors t |}.
Definition inc_skipped (t : stats) : stats :=
  {| files_processed := files_processed t; files_success := files_success t;
     files_failed := files_failed t; files_skipped := files_skipped t + 1;
     unknown_broker := unknown_broker t; errors := errors t |}.
Definition inc_unknown (t : stats) : stats :=
  {| files_processed := files_processed t; files_success := files_success t;
     files_failed := files_failed t; files_skipped := files_skipped t;
     unknown_broker := unknown_broker t + 1; errors := errors t |}.
Definition inc_processed (t : stats) : stats :=
  {| files_processed := files_processed t + 1; files_success := files_success t;
     files_failed := files_failed t; files_skipped := files_skipped t;
     unknown_broker := unknown_broker t; errors := errors t |}.
Definition add_error (e : str) (t : stats) : stats :=
  {| files_processed := files_processed t; files_success := files_success t;
     files_failed := files_failed t; files_skipped := files_skipped t;
     unknown_broker := unknown_broker t; errors := errors t ++ [e] |}.

(** ** FileManager *)

Definition supported_extensions : list str :=
  [py ".html"; py ".txt"; py ".pdf"; py ".md"].

(** [read_file_content(file_path, max_size_mb=50)] on an existing entry:
    [st_size / (1024 * 1024) > 50] is [st_size > 52428800]. *)
Definition read_content (f : file) : option str :=
  if fsize f >? 52428800 then None
  else
    let ext := lower (suffix (fname f)) in
    if str_in ext [py ".html"; py ".txt"; py ".md"] then ftext f
    else if str_eqb ext (py ".pdf")
    then Some (py "[PDF_CONTENT_PLACEHOLDER: " ++ fname f ++ py "]")
    else None.

(** [is_supported_file]: extension, [is_file()], [st_size > 0]. *)
Definition is_supported_file (f : file) : bool :=
  str_in (lower (suffix (fname f))) supported_extensions
  && fregular f && (0 <? fsize f).

(** The fields of [get_file_info] the pipeline reads ([file_path] is the
    directory and the name).  On an existing entry it never fails. *)
Record file_info := {
  fi_name : str;
  fi_dir : dir;
  fi_size : Z;
  fi_ext : str
}.

Definition get_file_info (d : dir) (f : file) : file_info :=
  {| fi_name := fname f; fi_dir := d; fi_size := fsize f;
     fi_ext := lower (suffix (fname f)) |}.

(** [scan_directory]: [for file_path in directory.iterdir(): if
    self.is_supported_file(file_path): ... files_info.append(file_info)]. *)
Definition scan_directory (fs : filesystem) (d : dir) : list file_info :=
  map (get_file_info d)
      (filter is_supported_file
              (map snd (filter (fun e => dir_eqb (fst e) d) fs))).

(** Decimal [str(n)]. *)
Fixpoint digits_rev (fuel : nat) (n : Z) : str :=
  match fuel with
  | O => []
  | S fuel' =>
      let d := 48 + n mod 10 in
      if n <? 10 then [d] else d :: digits_rev fuel' (n / 10)
  end.

Definition str_of_Z (n : Z) : str := rev (digits_rev 64 n).

(** [safe_move_file(source, destination)]: the [while destination.exists()]
    loop, run for at most [fuel] iterations; each iteration tries the next
    counter, and only [length fs] names can be taken, so [length fs + 1]
    iterations always reach a free name. *)
Fixpoint free_name (fs : filesystem) (d : dir) (base ext : str) (counter : Z)
         (fuel : nat) : str :=
  let cand := base ++ py "_" ++ str_of_Z counter ++ ext in
  match fuel with
  | O => cand
  | S fuel' =>
      match find_file fs d cand with
      | Some _ => free_name fs d base ext (counter + 1) fuel'
      | None => cand
      end
  end.

Definition safe_move_target (fs : filesystem) (d : dir) (n : str) : str :=
  match find_file fs d n with
  | None => n
  | Some _ => free_name fs d (stem n) (suffix n) 1 (List.length fs)
  end.

Definition safe_move_file (fs : filesystem) (src : dir) (n : str) (dst : dir)
  : option filesystem :=
  fs_rename fs src n dst (safe_move_target fs dst n).

(** ** ImportPipeline: [EnhancedReportImporter] *)

Inductive parse_status :=
| Success | NoParserFound | ParserInstantiationFailed | InvalidParserOutput
| ParseFailed.

Section Pipeline.

(** [hashlib.sha256(content.encode('utf-8')).hexdigest()] *)
Variable sha256 : str -> str.
(** [load_broker_patterns()] *)
Variable broker_patterns : pattern_table.
Variable PARSER_REGISTRY : registry.
(** Outcomes of the external operations, per file name. *)
Variable orc : str -> oracle.

Definition read_file_content (d : dir) (n : str) : M (option str) :=
  fun s => (Some (match find_file (st_fs s) d n with
                  | Some f => read_content f
                  | None => None
                  end), s).

(** [is_exact_duplicate] via [get_report_by_hash]: [existing is not None].
    When the query raises ([lookup_ok = false]), [get_report_by_hash] logs the
    error and returns [None], so the answer is [False]. *)
Definition is_exact_duplicate (lookup_ok : bool) (file_hash : str) : M bool :=
  emit (AHashQuery file_hash) ;;;
  s <- get ;;
  ret (lookup_ok && existsb (fun r => str_eqb (r_hash r) file_hash) (st_reports s)).

Definition triple_match (broker : str) (account : pyval) (period : str) (r : report) : bool :=
  str_eqb (r_broker r) broker && pyval_eqb (r_account r) account
  && str_eqb (r_period r) period.

(** [get_report_by_triple], as [is_semantic_duplicate] reads it
    ([existing is not None]); a raising query is logged and gives [None]. *)
Definition get_report_by_triple (lookup_ok : bool) (broker : str) (account : pyval)
           (period : str) : M bool :=
  emit (ATripleQuery broker account period) ;;;
  s <- get ;;
  ret (lookup_ok && existsb (triple_match broker account period) (st_reports s)).

Definition is_semantic_duplicate (lookup_ok : bool) (broker : str) (account : pyval)
           (period : str) (parsed_data : option pydict) : M bool :=
  match parsed_data with
  | Some d =>
      if dict_truthy d && dict_has d k_period_start then
        match slice7 (dict_get_default d k_period_start VNone) with
        | None => raise
        | Some parsed_period =>
            let parsed_account := dict_get_default d k_account_number account in
            get_report_by_triple lookup_ok broker parsed_account parsed_period
        end
      else get_report_by_triple lookup_ok broker account period
  | None => get_report_by_triple lookup_ok broker account period
  end.

Definition _parse_file_content (broker content : str) : M (option pydict * parse_status) :=
  emit (ASupportCheck broker) ;;;
  if negb (is_broker_supported PARSER_REGISTRY broker) then ret (None, NoParserFound)
  else
    emit (AGetParser broker) ;;;
    match registry_get PARSER_REGISTRY broker with
    | None => ret (None, ParserInstantiationFailed)
    | Some p =>
        if negb (instantiate_ok p) then ret (None, ParserInstantiationFailed)
        else
          emit (AParse broker) ;;;
          match parse p content with
          | ParseRaises => ret (None, ParseFailed)
          | ParseReturns None => ret (None, InvalidParserOutput)
          | ParseReturns (Some d) =>
              if negb (dict_truthy d) then ret (None, InvalidParserOutput)
              else ret (Some d, Success)
          end
    end.

(** [file_path.rename(target_dir / name)], recorded with its outcome. *)
Definition do_rename (src : dir) (n : str) (dst : dir) : M bool :=
  fun s =>
    match (if rename_ok (orc n) then fs_rename (st_fs s) src n dst n else None) with
    | Some fs' => (Some true, with_fs fs' (with_trace (st_trace s ++ [ARename src dst n true]) s))
    | None => (Some false, with_trace (st_trace s ++ [ARename src dst n false]) s)
    end.

Definition log_import_file (status n : str) : M unit :=
  emit (ADbLog status n (dblog_ok (orc n))).

Definition log_import_event (event_type n : str) : M unit :=
  emit (AEvent event_type n).

Definition move_to_duplicate_archive (fi : file_info) (duplicate_type : str) : M bool :=
  let target :=
    if str_eqb duplicate_type (py "exact_duplicates") then Some ExactDuplicates
    else if str_eqb duplicate_type (py "logical_duplicates") then Some LogicalDuplicates
    else None in
  match target with
  | None => ret false
  | Some target_dir =>
      ok <- do_rename (fi_dir fi) (fi_name fi) target_dir ;;
      if ok then log_import_event duplicate_type (fi_name fi) ;;; ret true
      else ret false
  end.

(** [insert_report]: the row gets [processing_status = 'raw'] and no
    [parsed_data]; the id is the next serial. *)
Definition insert_report (broker period n : str) (account : pyval) (file_hash : str)
  : M (option Z) :=
  fun s =>
    if insert_ok (orc n) then
      let id := Z.of_nat (List.length (st_reports s)) + 1 in
      let r := {| r_id := id; r_broker := broker; r_account := account;
                  r_period := period; r_file_name := n; r_hash := file_hash;
                  r_parsed_data := None; r_status := Raw |} in
      (Some (Some id),
       with_reports (st_reports s ++ [r]) (with_trace (st_trace s ++ [AInsert n true]) s))
    else (Some None, with_trace (st_trace s ++ [AInsert n false]) s).

Definition set_parsed (id : Z) (d : pydict) (status : processing_status) (r : report) : report :=
  if Z.eqb (r_id r) id then
    {| r_id := r_id r; r_broker := r_broker r; r_account := r_account r;
       r_period := r_period r; r_file_name := r_file_name r; r_hash := r_hash r;
       r_parsed_data := Some d; r_status := status |}
  else r.

Definition update_report_parsed_data (n : str) (id : Z) (d : pydict) : M unit :=
  fun s =>
    if update_ok (orc n) then
      (Some tt, with_reports (map (set_parsed id d Parsed) (st_reports s))
                             (with_trace (st_trace s ++ [AUpdateParsed id true]) s))
    else (Some tt, with_trace (st_trace s ++ [AUpdateParsed id false]) s).

(** Step 7 of [process_file_enhanced]: period reconciliation. *)
Definition check_period_mismatch (n : str) (parsed_data : option pydict)
           (period : str) (account : pyval) : M (str * pyval) :=
  match parsed_data with
  | Some d =>
      if dict_truthy d && dict_has d k_period_start then
        match slice7 (dict_get_default d k_period_start VNone) with
        | None => raise
        | Some parsed_period =>
            if negb (str_eqb period parsed_period) then
              log_import_event (py "period_mismatch") n ;;;
              ret (parsed_period, dict_get_default d k_account_number account)
            else ret (period, account)
        end
      else ret (period, account)
  | None => ret (period, account)
  end.

(** STAGE 4 of [process_file_enhanced]: insert, log, move to imported/. *)
Definition insert_stage (fi : file_info) (broker period : str) (account : pyval)
           (file_hash : str) (parsed_data : option pydict) : M bool :=
  let n := fi_name fi in
  report_id <- insert_report broker period n account file_hash ;;
  (match parsed_data, report_id with
   | Some d, Some id =>
       if dict_truthy d then update_report_parsed_data n id d else ret tt
   | _, _ => ret tt
   end) ;;;
  match report_id with
  | None =>
      bump inc_failed ;;;
      log_import_file (py "failure") n ;;;
      ret false
  | Some _ =>
      bump inc_success ;;;
      log_import_file (py "success") n ;;;
      log_import_event (py "imported") n ;;;
      ok <- do_rename (fi_dir fi) n Imported ;;
      if ok then ret true else bump inc_failed ;;; ret false
  end.

Definition process_file_body (fi : file_info) : M bool :=
  let n := fi_name fi in
  content <- read_file_content (fi_dir fi) n ;;
  match content with
  | None | Some [] => bump inc_failed ;;; ret false
  | Some c =>
    let file_hash := sha256 c in
    is_exact <- is_exact_duplicate (hash_lookup_ok (orc n)) file_hash ;;
    if is_exact then
      _ <- move_to_duplicate_archive fi (py "exact_duplicates") ;;
      log_import_file (py "duplicate_detected") n ;;;
      log_import_event (py "exact_duplicate") n ;;;
      bump inc_skipped ;;;
      ret true
    else
      let broker := detect_broker_tiered n c broker_patterns in
      (if str_eqb broker unknown then bump inc_unknown else ret tt) ;;;
      let period := extract_period_from_filename n in
      let account := match extract_account_from_filename n with
                     | Some a => VStr a
                     | None => VNone
                     end in
      _ <- is_semantic_duplicate (filename_lookup_ok (orc n)) broker account period None ;;
      '(parsed_data, status) <- _parse_file_content broker c ;;
      match status with
      | NoParserFound =>
          ok <- do_rename (fi_dir fi) n Unrecognized ;;
          if negb ok then bump inc_failed ;;; ret false
          else
            log_import_file (py "skipped") n ;;;
            log_import_event (py "no_parser_found") n ;;;
            bump inc_skipped ;;;
            ret true
      | _ =>
          let parsed_data := match status with
                             | ParseFailed => None
                             | _ => parsed_data
                             end in
          '(period, account) <- check_period_mismatch n parsed_data period account ;;
          is_sem <- is_semantic_duplicate (recheck_lookup_ok (orc n)) broker account period parsed_data ;;
          if is_sem then
            _ <- move_to_duplicate_archive fi (py "logical_duplicates") ;;
            log_import_file (py "collision_mismatch") n ;;;
            log_import_event (py "semantic_duplicate") n ;;;
            bump inc_skipped ;;;
            ret true
          else insert_stage fi broker period account file_hash parsed_data
      end
  end.

Definition process_file_enhanced (fi : file_info) : M bool :=
  try_except (process_file_body fi)
             (bump inc_failed ;;; bump (add_error (fi_name fi)) ;;; ret false).

Definition scan_inbox : M (list file_info) :=
  s <- get ;; ret (scan_directory (st_fs s) Inbox).

Fixpoint process_all (files_info : list file_info) : M unit :=
  match files_info with
  | [] => ret tt
  | fi :: rest =>
      _ <- process_file_enhanced fi ;;
      bump inc_processed ;;;
      process_all rest
  end.

Definition has_content (fs : filesystem) (fi : file_info) : bool :=
  match find_file fs (fi_dir fi) (fi_name fi) with
  | Some f => match read_content f with Some (_ :: _) => true | _ => false end
  | None => false
  end.

(** [import_reports(source="inbox", broker, dry_run)].  [source_exists]:
    whether [source_path.exists()]; [mkdir_ok]: whether
    [archive_path.mkdir(parents=True, exist_ok=True)] returns (it is not
    inside a [try], so its exception leaves [import_reports]).  [if broker:]
    filters only on a non-empty name.  The archive directory that [mkdir]
    creates and the diagnostics summary file written at the end are outside
    this model, whose file system holds files only. *)
Definition import_reports (source_exists mkdir_ok : bool) (broker : option str)
           (dry_run : bool) : M bool :=
  if negb source_exists then ret false else
  if negb mkdir_ok then raise else
  files_info <- scan_inbox ;;
  match files_info with
  | [] => ret true
  | _ =>
      s <- get ;;
      let files_info :=
        match broker with
        | None | Some [] => files_info
        | Some b =>
            filter (fun fi => has_content (st_fs s) fi
                              && str_eqb (detect_broker_from_filename (fi_name fi)) b)
                   files_info
        end in
      if dry_run then ret true
      else process_all files_info ;;; emit AOpLog ;;; ret true
  end.

End Pipeline.

(** ** Reading of the spec's words (used only for comparison) *)

(** BrokerClassifier as the claim words it: the first entry of the table
    (whatever its key) whose filename patterns match, else the first whose
    content patterns match, else ["unknown"]. *)
Definition fn_hit (filename_lower : str) (c : broker_config) : bool :=
  existsb (fun p => contains filename_lower (lower p)) (filename_patterns c).
Definition html_hit (content_lower : str) (c : broker_config) : bool :=
  existsb (fun p => contains content_lower (lower p)) (html_patterns c).

Fixpoint first_hit (hit : broker_config -> bool) (ps : pattern_table) : option str :=
  match ps with
  | [] => None
  | (b, c) :: ps' => if hit c then Some b else first_hit hit ps'
  end.

Definition classify_spec (file_name content : str) (ps : pattern_table) : str :=
  match first_hit (fn_hit (lower file_name)) ps with
  | Some b => b
  | None =>
      match first_hit (html_hit (lower content)) ps with
      | Some b => b
      | None => unknown
      end
  end.

(** An entry the classifier passes over for a tier: keyed ["unknown"], or
    no pattern of that tier matches. *)
Definition passed_over (hit : broker_config -> bool) (e : str * broker_config) : Prop :=
  str_eqb (fst e) unknown = true \/ hit (snd e) = false.

(** * Proofs *)

(** ** String lemmas *)

Lemma str_eqb_eq : forall a b, str_eqb a b = true <-> a = b.
Proof.
  induction a as [|x a IH]; intros [|y b]; cbn; try (split; congruence).
  rewrite andb_true_iff, Z.eqb_eq, IH. split; [intros [-> ->]; reflexivity|].
  intros H; injection H; auto.
Qed.

Lemma str_eqb_refl : forall a, str_eqb a a = true.
Proof. intros a. apply str_eqb_eq. reflexivity. Qed.

(** ** Classifier lemmas *)

Lemma tier_filename_first : forall fl pre b c post,
  str_eqb b unknown = false -> fn_hit fl c = true ->
  Forall (passed_over (fn_hit fl)) pre ->
  tier_filename fl (pre ++ (b, c) :: post) = Some b.
Proof.
  intros fl pre b c post Hb Hc Hpre. induction Hpre as [|[b' c'] pre Hp Hpre IH]; cbn [tier_filename app].
  - rewrite Hb. unfold fn_hit in Hc. rewrite Hc. reflexivity.
  - destruct Hp as [Hp|Hp]; cbn [fst snd] in Hp; rewrite ?Hp.
    + exact IH.
    + destruct (str_eqb b' unknown); [exact IH|]. unfold fn_hit in Hp. rewrite Hp. exact IH.
Qed.

Lemma tier_filename_none : forall fl ps,
  Forall (passed_over (fn_hit fl)) ps -> tier_filename fl ps = None.
Proof.
  intros fl ps H. induction H as [|[b c] ps Hp _ IH]; cbn [tier_filename]; [reflexivity|].
  destruct Hp as [Hp|Hp]; cbn [fst snd] in Hp; rewrite ?Hp; [exact IH|].
  destruct (str_eqb b unknown); [exact IH|]. unfold fn_hit in Hp. rewrite Hp. exact IH.
Qed.

Lemma tier_html_first : forall cl pre b c post,
  str_eqb b unknown = false -> html_hit cl c = true ->
  Forall (passed_over (html_hit cl)) pre ->
  tier_html cl (pre ++ (b, c) :: post) = Some b.
Proof.
  intros cl pre b c post Hb Hc Hpre. induction Hpre as [|[b' c'] pre Hp Hpre IH]; cbn [tier_html app].
  - rewrite Hb. unfold html_hit in Hc. rewrite Hc. reflexivity.
  - destruct Hp as [Hp|Hp]; cbn [fst snd] in Hp; rewrite ?Hp.
    + exact IH.
    + destruct (str_eqb b' unknown); [exact IH|]. unfold html_hit in Hp. rewrite Hp. exact IH.
Qed.

Lemma tier_html_none : forall cl ps,
  Forall (passed_over (html_hit cl)) ps -> tier_html cl ps = None.
Proof.
  intros cl ps H. induction H as [|[b c] ps Hp _ IH]; cbn [tier_html]; [reflexivity|].
  destruct Hp as [Hp|Hp]; cbn [fst snd] in Hp; rewrite ?Hp; [exact IH|].
  destruct (str_eqb b unknown); [exact IH|]. unfold html_hit in Hp. rewrite Hp. exact IH.
Qed.

(** A table with an entry keyed ["unknown"] whose filename pattern matches,
    followed by a broker whose content pattern matches. *)
Definition cex_table : pattern_table :=
  [ (unknown, {| filename_patterns := [py "x"]; html_patterns := [] |});
    (py "sber", {| filename_patterns := []; html_patterns := [py "y"] |}) ].

(** C6 (counterexample): the filename of ["x.html"] matches a pattern of the
    first table entry, keyed ["unknown"]; read as the claim words it, the
    classifier returns that entry's key without looking at the content, but
    [detect_broker_tiered] skips the entry and returns ["sber"] from the
    content tier. *)
Lemma C6_unknown_entry_skipped :
  detect_broker_tiered (py "x.html") (py "y") cex_table = py "sber" /\
  classify_spec (py "x.html") (py "y") cex_table = unknown.
Proof. split; vm_compute; reflexivity. Qed.

(** C6 (amended): ignoring table entries keyed ["unknown"], the classifier
    returns the first broker (in table order) with a filename pattern that is
    a case-insensitive substring of the file name, whatever the content;
    if no entry matches on the filename, the first broker whose content
    pattern matches the content; otherwise ["unknown"]. *)
Theorem C6_detect_broker_tiered_first_match : forall file_name content ps,
  (forall pre b c post, ps = pre ++ (b, c) :: post ->
     str_eqb b unknown = false -> fn_hit (lower file_name) c = true ->
     Forall (passed_over (fn_hit (lower file_name))) pre ->
     forall content', detect_broker_tiered file_name content' ps = b) /\
  (Forall (passed_over (fn_hit (lower file_name))) ps ->
   forall pre b c post, ps = pre ++ (b, c) :: post ->
     str_eqb b unknown = false -> html_hit (lower content) c = true ->
     Forall (passed_over (html_hit (lower content))) pre ->
     detect_broker_tiered file_name content ps = b) /\
  (Forall (passed_over (fn_hit (lower file_name))) ps ->
   Forall (passed_over (html_hit (lower content))) ps ->
   detect_broker_tiered file_name content ps = unknown).
Proof.
  intros file_name content ps. split; [|split].
  - intros pre b c post -> Hb Hc Hpre content'. unfold detect_broker_tiered.
    rewrite (tier_filename_first _ pre b c post Hb Hc Hpre). reflexivity.
  - intros Hfn pre b c post -> Hb Hc Hpre. unfold detect_broker_tiered.
    rewrite (tier_filename_none _ _ Hfn), (tier_html_first _ pre b c post Hb Hc Hpre).
    reflexivity.
  - intros Hfn Hhtml. unfold detect_broker_tiered.
    rewrite (tier_filename_none _ _ Hfn), (tier_html_none _ _ Hhtml). reflexivity.
Qed.

(** Witness for the three cases of [C6_detect_broker_tiered_first_match]. *)
Definition wit_table : pattern_table :=
  [ (py "tinkoff", {| filename_patterns := [py "4000T49"]; html_patterns := [py "tinkoff"] |});
    (py "sber", {| filename_patterns := [py "SBER"]; html_patterns := [py "sberbank"] |}) ].

Lemma C6_detect_broker_tiered_first_match_witness :
  detect_broker_tiered (py "report_sber.html") (py "any") wit_table = py "sber" /\
  detect_broker_tiered (py "report.html") (py "SberBank report") wit_table = py "sber" /\
  detect_broker_tiered (py "report.html") (py "nothing") wit_table = unknown.
Proof.
  split; [|split].
  - apply (proj1 (C6_detect_broker_tiered_first_match (py "report_sber.html") (py "any") wit_table)
             [(py "tinkoff", {| filename_patterns := [py "4000T49"]; html_patterns := [py "tinkoff"] |})]
             (py "sber") {| filename_patterns := [py "SBER"]; html_patterns := [py "sberbank"] |} []);
      [reflexivity | vm_compute; reflexivity | vm_compute; reflexivity
      | constructor; [right; vm_compute; reflexivity | constructor]].
  - apply (proj1 (proj2 (C6_detect_broker_tiered_first_match (py "report.html") (py "SberBank report") wit_table))
             ltac:(repeat constructor; right; vm_compute; reflexivity)
             [(py "tinkoff", {| filename_patterns := [py "4000T49"]; html_patterns := [py "tinkoff"] |})]
             (py "sber") {| filename_patterns := [py "SBER"]; html_patterns := [py "sberbank"] |} []);
      [reflexivity | vm_compute; reflexivity | vm_compute; reflexivity
      | constructor; [right; vm_compute; reflexivity | constructor]].
  - apply (proj2 (proj2 (C6_detect_broker_tiered_first_match (py "report.html") (py "nothing") wit_table)));
      repeat constructor; right; vm_compute; reflexivity.
Defined.

(** ** Symbolic execution of the pipeline *)

Ltac unfold_pipeline :=
  cbv beta iota zeta delta [process_file_enhanced try_except process_file_body bind ret
    read_file_content is_exact_duplicate emit modify get log_import_file log_import_event
    move_to_duplicate_archive do_rename bump raise insert_stage insert_report
    update_report_parsed_data check_period_mismatch is_semantic_duplicate
    get_report_by_triple _parse_file_content].

Ltac is_simple x :=
  lazymatch x with context [match _ with _ => _ end] => fail | _ => idtac end.

(** Case split on the innermost scrutinees, simplifying after each step. *)
Ltac split_matches :=
  repeat (cbn -[detect_broker_tiered extract_period_from_filename
                extract_account_from_filename is_broker_supported py firstn] in *;
    rewrite ?andb_false_r in *;
    match goal with
    | |- context [match ?x with _ => _ end] => is_simple x; destruct x eqn:?
    end);
  try discriminate.

(** The same, but a scrutinee already known from a hypothesis [x = v] is
    rewritten rather than split. *)
Ltac split_matches_h :=
  repeat (cbn -[detect_broker_tiered extract_period_from_filename
                extract_account_from_filename is_broker_supported py firstn] in *;
    rewrite ?andb_false_r in *;
    match goal with
    | |- context [match ?x with _ => _ end] =>
        is_simple x;
        first [ match goal with
                | H : ?y = _ |- _ =>
                    match x with context [y] => rewrite H end
                end
              | destruct x eqn:? ]
    end);
  try discriminate.

Ltac simpl_state :=
  cbn [fst snd st_trace st_reports st_fs st_stats with_trace with_fs with_stats
       with_reports] in *;
  rewrite <- ?app_assoc.

(** Branches on a comparison of two distinct literals are dead. *)
Ltac kill_literal_branches :=
  repeat match goal with
  | H : str_eqb (py _) (py _) = _ |- _ => vm_compute in H; try discriminate H; clear H
  end.

Definition rename_action (a : action) : bool :=
  match a with ARename _ _ _ _ => true | _ => false end.
(** The effect names the file [m] (the audit trail and the moves do). *)
Definition mentions (m : str) (a : action) : bool :=
  match a with
  | ARename _ _ n _ | AInsert n _ | ADbLog _ n _ | AEvent _ n => str_eqb n m
  | _ => false
  end.

(** ** File system lemmas *)

Lemma find_file_name : forall fs d n f, find_file fs d n = Some f -> fname f = n.
Proof.
  intros fs d n f H. unfold find_file in H.
  destruct (find (at_path d n) fs) as [[d' f']|] eqn:E; [|discriminate].
  injection H as <-. apply find_some in E as [_ E].
  unfold at_path in E. apply andb_true_iff in E as [_ E]. apply str_eqb_eq. exact E.
Qed.

Lemma rename_file_same : forall f, rename_file f (fname f) = f.
Proof. intros [n sz r t]. reflexivity. Qed.

Lemma fs_rename_found : forall fs src n dst f,
  find_file fs src n = Some f ->
  exists fs', fs_rename fs src n dst n = Some fs' /\ In (dst, f) fs'.
Proof.
  intros fs src n dst f H. unfold fs_rename. rewrite H. eexists; split; [reflexivity|].
  apply in_or_app. right. left. rewrite <- (find_file_name _ _ _ _ H), rename_file_same.
  reflexivity.
Qed.

Lemma fs_rename_result : forall fs src n dst fs',
  fs_rename fs src n dst n = Some fs' ->
  exists f, find_file fs src n = Some f /\ In (dst, f) fs'.
Proof.
  intros fs src n dst fs' H. unfold fs_rename in H.
  destruct (find_file fs src n) as [f|] eqn:E; [|discriminate].
  exists f. split; [reflexivity|]. injection H as <-.
  apply in_or_app. right. left. rewrite <- (find_file_name _ _ _ _ E), rename_file_same.
  reflexivity.
Qed.

(** A rename leaves every entry alone that is neither the source nor the
    target. *)
Lemma fs_rename_frame : forall fs src n dst n' fs' e,
  fs_rename fs src n dst n' = Some fs' ->
  In e fs -> at_path src n e = false -> at_path dst n' e = false -> In e fs'.
Proof.
  intros fs src n dst n' fs' e H He H1 H2. unfold fs_rename in H.
  destruct (find_file fs src n); [|discriminate]. injection H as <-.
  apply in_or_app. left. apply filter_In. split; [exact He|]. rewrite H1, H2. reflexivity.
Qed.

(** Entries that are not in the source directory under name [n]. *)
Lemma at_path_other_name : forall d d' n f,
  str_eqb (fname f) n = false -> at_path d n (d', f) = false.
Proof. intros d d' n f H. unfold at_path. cbn. rewrite H. apply andb_false_r. Qed.

Lemma at_path_other_dir : forall d d' n f,
  dir_eqb d' d = false -> at_path d n (d', f) = false.
Proof. intros d d' n f H. unfold at_path. cbn. rewrite H. reflexivity. Qed.

(** Cheap leaf closer for concrete traces. *)
Ltac close_trace :=
  match goal with
  | |- exists new, ?l ++ _ = ?l ++ new /\ _ => eexists; split; [reflexivity|]
  end.



(** ** The exact-duplicate path *)



(** A concrete setting: a persisted report and a byte-for-byte copy of its
    file under another name. *)
Definition stats0 : stats :=
  {| files_processed := 0; files_success := 0; files_failed := 0;
     files_skipped := 0; unknown_broker := 0; errors := [] |}.

Definition orc_ok (_ : str) : oracle :=
  {| rename_ok := true; insert_ok := true; update_ok := true; dblog_ok := true;
     hash_lookup_ok := true; filename_lookup_ok := true; recheck_lookup_ok := true |}.

Definition copy_file : file :=
  {| fname := py "copy.html"; fsize := 5; fregular := true; ftext := Some (py "hello") |}.

Definition report_hello : report :=
  {| r_id := 1; r_broker := py "sber"; r_account := VNone; r_period := py "2023-07";
     r_file_name := py "orig.html"; r_hash := py "hello"; r_parsed_data := None;
     r_status := Raw |}.

Definition st_copy : state :=
  {| st_fs := [(Inbox, copy_file)]; st_reports := [report_hello]; st_trace := [];
     st_stats := stats0 |}.

Definition fi_copy : file_info := get_file_info Inbox copy_file.




(** ** The no-parser path *)



Definition plain_file : file :=
  {| fname := py "report.html"; fsize := 5; fregular := true; ftext := Some (py "hello") |}.

Definition st_plain : state :=
  {| st_fs := [(Inbox, plain_file)]; st_reports := []; st_trace := []; st_stats := stats0 |}.



(** ** Period reconciliation *)

Lemma set_parsed_fields : forall id d st r,
  r_period (set_parsed id d st r) = r_period r /\
  r_file_name (set_parsed id d st r) = r_file_name r /\
  r_hash (set_parsed id d st r) = r_hash r.
Proof. intros id d st r. unfold set_parsed. destruct (Z.eqb (r_id r) id); auto. Qed.










(** ** Parse failure *)











(** ** Ordering of moves and store writes *)

(** The [import_log] statuses written on the archive paths (exact
    duplicate, semantic duplicate, unrecognized). *)
Definition archive_log_statuses : list str :=
  [py "duplicate_detected"; py "collision_mismatch"; py "skipped"].

(** A left-to-right check of a trace: [ins] records a committed insert,
    [failed] a failed one, [renamed] an attempted move. A move after a failed
    insert, a move to imported/ before a committed insert, or an archive-path
    [import_log] row before any move, makes it [false]. *)
Fixpoint gates (ins failed renamed : bool) (l : list action) : bool :=
  match l with
  | [] => true
  | AInsert _ ok :: l' =>
      if ok then gates true failed renamed l' else gates ins true renamed l'
  | ARename _ d _ _ :: l' =>
      negb failed && (negb (dir_eqb d Imported) || ins) && gates ins failed true l'
  | ADbLog st _ _ :: l' =>
      (renamed || negb (str_in st archive_log_statuses)) && gates ins failed renamed l'
  | _ :: l' => gates ins failed renamed l'
  end.

Lemma gates_failed : forall l i r,
  gates i true r l = true -> Forall (fun a => rename_action a = false) l.
Proof.
  induction l as [|a l IH]; intros i r H; [constructor|].
  destruct a; cbn in H |- *;
    repeat match goal with
           | H : _ && _ = true |- _ => apply andb_prop in H as [? H]
           | H : (if ?b then _ else _) = true |- _ => destruct b
           end;
    try discriminate; constructor; eauto.
Qed.

Lemma gates_imported : forall pre l i f r src n b post,
  gates i f r l = true -> l = pre ++ ARename src Imported n b :: post ->
  i = true \/ exists n', In (AInsert n' true) pre.
Proof.
  induction pre as [|a pre IH]; intros l i f r src n b post H ->; cbn in H.
  - apply andb_prop in H as [H _]. apply andb_prop in H as [_ H].
    cbn in H. left. exact H.
  - destruct a; cbn in H;
      repeat match goal with
             | H : _ && _ = true |- _ => apply andb_prop in H as [? H]
             end;
      try (destruct (IH _ _ _ _ _ _ _ _ H eq_refl) as [E | [n' E]];
           [left; exact E | right; exists n'; right; exact E]).
    destruct ok.
    + right. exists name. left. reflexivity.
    + destruct (IH _ _ _ _ _ _ _ _ H eq_refl) as [E | [n' E]];
        [left; exact E | right; exists n'; right; exact E].
Qed.

Lemma gates_insert_failed : forall pre l i f r n post,
  gates i f r l = true -> l = pre ++ AInsert n false :: post ->
  Forall (fun a => rename_action a = false) post.
Proof.
  induction pre as [|a pre IH]; intros l i f r n post H ->; cbn in H.
  - exact (gates_failed _ _ _ H).
  - destruct a; cbn in H;
      repeat match goal with
             | H : _ && _ = true |- _ => apply andb_prop in H as [? H]
             | H : (if ?b then _ else _) = true |- _ => destruct b
             end;
      eauto.
Qed.

Lemma gates_dblog : forall pre l i f r st n ok post,
  gates i f r l = true -> l = pre ++ ADbLog st n ok :: post ->
  str_in st archive_log_statuses = true ->
  r = true \/ exists src d n' b, In (ARename src d n' b) pre.
Proof.
  induction pre as [|a pre IH]; intros l i f r st n ok post H -> Hst; cbn [gates app] in H.
  - apply andb_prop in H as [H _]. rewrite Hst in H.
    destruct r; [left; reflexivity | discriminate].
  - destruct a; cbn [gates] in H;
      repeat match goal with
             | H : _ && _ = true |- _ => apply andb_prop in H as [? H]
             | H : (if ?b then _ else _) = true |- _ => destruct b
             end;
      try (destruct (IH _ _ _ _ _ _ _ _ H eq_refl Hst) as [E | (src' & d' & n'' & b' & E)];
           [left; exact E | right; exists src', d', n'', b'; right; exact E]).
    destruct (IH _ _ _ _ _ _ _ _ H eq_refl Hst) as [_ | (src' & d' & n'' & b' & E)].
    + right. exists src, dst, name, ok0. left. reflexivity.
    + right. exists src', d', n'', b'. right. exact E.
Qed.

(** Every run of [process_file_enhanced] passes [gates]. *)
Lemma process_file_gates : forall sha256 pats reg orc fi s,
  let r := process_file_enhanced sha256 pats reg orc fi s in
  exists new, st_trace (snd r) = st_trace s ++ new /\ gates false false false new = true.
Proof.
  intros. subst r. unfold_pipeline.
  generalize (match extract_account_from_filename (fi_name fi) with
              | Some a => VStr a | None => VNone end). intros acc.
  split_matches.
  all: cbn -[detect_broker_tiered extract_period_from_filename
             extract_account_from_filename is_broker_supported py firstn].
  all: simpl_state.
  all: first [close_trace | exists []; split; [symmetry; apply app_nil_r|]].
  all: reflexivity.
Qed.

(** The same outcomes, except the [import_log] writes, which give [b]. *)
Definition set_dblog (b : bool) (o : oracle) : oracle :=
  {| rename_ok := rename_ok o; insert_ok := insert_ok o; update_ok := update_ok o;
     dblog_ok := b; hash_lookup_ok := hash_lookup_ok o;
     filename_lookup_ok := filename_lookup_ok o; recheck_lookup_ok := recheck_lookup_ok o |}.

(** Nothing reads the outcome of an [import_log] write: the result, the
    file system and the reports are the same whatever it is. *)
Lemma process_file_dblog_independent : forall sha256 pats reg orc fi s b,
  let r := process_file_enhanced sha256 pats reg orc fi s in
  let r' := process_file_enhanced sha256 pats reg (fun m => set_dblog b (orc m)) fi s in
  fst r' = fst r /\ st_fs (snd r') = st_fs (snd r) /\ st_reports (snd r') = st_reports (snd r).
Proof.
  intros. subst r r'. unfold_pipeline.
  cbn [set_dblog rename_ok insert_ok update_ok dblog_ok hash_lookup_ok filename_lookup_ok
       recheck_lookup_ok].
  generalize (match extract_account_from_filename (fi_name fi) with
              | Some a => VStr a | None => VNone end). intros acc.
  split_matches.
  all: cbn -[detect_broker_tiered extract_period_from_filename
             extract_account_from_filename is_broker_supported py firstn].
  all: simpl_state.
  all: split; [reflexivity | split; reflexivity].
Qed.

Definition orc_nolog (_ : str) : oracle :=
  {| rename_ok := true; insert_ok := true; update_ok := true; dblog_ok := false;
     hash_lookup_ok := true; filename_lookup_ok := true; recheck_lookup_ok := true |}.

(** C3 (counterexample): an exact duplicate while the [import_log] write
    fails. The file is moved to exact_duplicates/ first; the failing
    [duplicate_detected] write comes after the move and does not undo it. *)
Lemma C3_move_before_failed_log :
  let r := process_file_enhanced (fun t => t) [] [] orc_nolog fi_copy st_copy in
  st_trace (snd r) =
    [AHashQuery (py "hello");
     ARename Inbox ExactDuplicates (py "copy.html") true;
     AEvent (py "exact_duplicates") (py "copy.html");
     ADbLog (py "duplicate_detected") (py "copy.html") false;
     AEvent (py "exact_duplicate") (py "copy.html")] /\
  In (ExactDuplicates, copy_file) (st_fs (snd r)).
Proof. vm_compute. split; [reflexivity | left; reflexivity]. Qed.

(** C3 (amended): in every run, a move to imported/ is attempted only after
    a committed insert, and no move at all follows a failed insert. On the
    exact-duplicate, semantic-duplicate and unrecognized paths the order is
    reversed: any [import_log] row with status [duplicate_detected],
    [collision_mismatch] or [skipped] is written after the move was
    attempted, whatever the outcome of that write; and that outcome changes
    nothing else: with every [import_log] write failing (or succeeding) the
    result, the file system (so the moves and where the file ends) and the
    reports are the same. *)
Theorem C3_moves_and_store_writes_ordered : forall sha256 pats reg orc fi s,
  let r := process_file_enhanced sha256 pats reg orc fi s in
  exists new, st_trace (snd r) = st_trace s ++ new /\
  (forall pre src n b post, new = pre ++ ARename src Imported n b :: post ->
     exists n', In (AInsert n' true) pre) /\
  (forall pre n post, new = pre ++ AInsert n false :: post ->
     Forall (fun a => rename_action a = false) post) /\
  (forall pre st n ok post, new = pre ++ ADbLog st n ok :: post ->
     str_in st archive_log_statuses = true ->
     exists src d n' b, In (ARename src d n' b) pre) /\
  (forall b, let r' := process_file_enhanced sha256 pats reg (fun m => set_dblog b (orc m)) fi s in
     fst r' = fst r /\ st_fs (snd r') = st_fs (snd r) /\ st_reports (snd r') = st_reports (snd r)).
Proof.
  intros sha256 pats reg orc fi s r.
  destruct (process_file_gates sha256 pats reg orc fi s) as [new [Ht Hg]].
  exists new. split; [exact Ht|]. split; [|split; [|split]].
  - intros pre src n b post E.
    destruct (gates_imported _ _ _ _ _ _ _ _ _ Hg E) as [F | H]; [discriminate | exact H].
  - intros pre n post E. exact (gates_insert_failed _ _ _ _ _ _ _ Hg E).
  - intros pre st n ok post E Hst.
    destruct (gates_dblog _ _ _ _ _ _ _ _ _ Hg E Hst) as [F | H]; [discriminate | exact H].
  - intros b. exact (process_file_dblog_independent sha256 pats reg orc fi s b).
Qed.

Lemma C3_moves_and_store_writes_ordered_witness :
  exists new, st_trace (snd (process_file_enhanced (fun t => t) [] [] orc_ok fi_copy st_copy))
              = [] ++ new.
Proof.
  destruct (C3_moves_and_store_writes_ordered (fun t => t) [] [] orc_ok fi_copy st_copy)
    as [new [H _]].
  exists new. exact H.
Defined.

(** ** Name collisions in the archive *)

Lemma dir_eqb_refl : forall d, dir_eqb d d = true.
Proof. destruct d; reflexivity. Qed.

(** [Path.rename] onto an existing name replaces the file found there. *)
Lemma fs_rename_drops_target : forall fs src n dst fs' f g,
  fs_rename fs src n dst n = Some fs' -> find_file fs src n = Some f ->
  fname g = n -> g <> f -> ~ In (dst, g) fs'.
Proof.
  intros fs src n dst fs' f g H Hf Hg Hne Hin. unfold fs_rename in H. rewrite Hf in H.
  injection H as <-. apply in_app_or in Hin as [Hin | [Hin | []]].
  - apply filter_In in Hin as [_ Hin]. unfold at_path in Hin. cbn in Hin.
    rewrite Hg, dir_eqb_refl, str_eqb_refl in Hin. cbn in Hin. rewrite andb_false_r in Hin. discriminate.
  - injection Hin as Hin. apply Hne. rewrite <- Hin, <- (find_file_name _ _ _ _ Hf).
    apply rename_file_same.
Qed.

(** C4 (the code's behaviour): an exact duplicate (its hash lookup succeeds
    and matches) whose name is already taken in exact_duplicates/ by another
    file [g]. The archive move is a
    plain [Path.rename], so when it succeeds [g] is gone from
    exact_duplicates/ and the incoming file has taken its place. *)
Theorem C4_archive_move_replaces_existing : forall sha256 pats reg orc fi s f c g,
  let n := fi_name fi in
  find_file (st_fs s) (fi_dir fi) n = Some f ->
  read_content f = Some c -> c <> [] ->
  hash_lookup_ok (orc n) = true ->
  existsb (fun r => str_eqb (r_hash r) (sha256 c)) (st_reports s) = true ->
  rename_ok (orc n) = true ->
  In (ExactDuplicates, g) (st_fs s) -> fname g = n -> g <> f ->
  let r := process_file_enhanced sha256 pats reg orc fi s in
  ~ In (ExactDuplicates, g) (st_fs (snd r)) /\ In (ExactDuplicates, f) (st_fs (snd r)).
Proof.
  intros sha256 pats reg orc fi s f c g n Hf Hr Hc Hl Hx Hok Hg Hgn Hne r. subst r n.
  unfold_pipeline. rewrite Hf, Hr, Hl. destruct c as [|x c]; [congruence|].
  split_matches_h; kill_literal_branches; simpl_state.
  all: try (destruct (fs_rename_found (st_fs s) (fi_dir fi) (fi_name fi) ExactDuplicates f Hf)
              as [fs' [E _]]; congruence).
  split.
  - exact (fs_rename_drops_target _ _ _ _ _ _ _ Heqo Hf Hgn Hne).
  - destruct (fs_rename_result _ _ _ _ _ Heqo) as [f' [Hf' Hin]].
    rewrite Hf in Hf'. injection Hf' as <-. exact Hin.
Qed.

(** The failing input: a copy of a persisted report arrives under a name
    that exact_duplicates/ already holds for an older file. *)
Definition old_archived : file :=
  {| fname := py "copy.html"; fsize := 5; fregular := true; ftext := Some (py "older") |}.

Definition st_clash : state :=
  {| st_fs := [(ExactDuplicates, old_archived); (Inbox, copy_file)];
     st_reports := [report_hello]; st_trace := []; st_stats := stats0 |}.

(** C4 (failing input): the pipeline's move replaces the archived file,
    while [FileManager.safe_move_file] on the same file system keeps it
    and stores the incoming file as [copy_1.html]. *)
Lemma C4_archive_overwrite_example :
  st_fs (snd (process_file_enhanced (fun t => t) [] [] orc_ok fi_copy st_clash))
    = [(ExactDuplicates, copy_file)] /\
  safe_move_file (st_fs st_clash) Inbox (py "copy.html") ExactDuplicates
    = Some [(ExactDuplicates, old_archived);
            (ExactDuplicates, rename_file copy_file (py "copy_1.html"))].
Proof. split; vm_compute; reflexivity. Qed.

Lemma C4_archive_move_replaces_existing_witness :
  ~ In (ExactDuplicates, old_archived)
       (st_fs (snd (process_file_enhanced (fun t => t) [] [] orc_ok fi_copy st_clash))).
Proof.
  destruct (C4_archive_move_replaces_existing (fun t => t) [] [] orc_ok fi_copy st_clash
              copy_file (py "hello") old_archived
              ltac:(vm_compute; reflexivity) ltac:(vm_compute; reflexivity)
              ltac:(discriminate) ltac:(reflexivity) ltac:(vm_compute; reflexivity)
              ltac:(vm_compute; reflexivity) ltac:(left; reflexivity)
              ltac:(vm_compute; reflexivity)
              ltac:(intro E; vm_compute in E; discriminate E)) as [H _].
  exact H.
Defined.

(** ** Filename metadata *)

(** [re.search] by trying a match at each start position, left to right. *)
Section Search.
Variable A : Type.
Variable at_start : str -> option A.
Variable search : str -> option A.
Hypothesis search_eq : forall s, search s =
  match at_start s with
  | Some g => Some g
  | None => match s with [] => None | _ :: s' => search s' end
  end.
Hypothesis at_start_nil : at_start [] = None.


End Search.

Lemma search_yyyy_mm_eq : forall s, search_yyyy_mm s =
  match match_yyyy_mm s with
  | Some g => Some g
  | None => match s with [] => None | _ :: s' => search_yyyy_mm s' end
  end.
Proof. destruct s; reflexivity. Qed.

Lemma search_year_eq : forall s, search_year s =
  match match_year s with
  | Some g => Some g
  | None => match s with [] => None | _ :: s' => search_year s' end
  end.
Proof. destruct s; reflexivity. Qed.







(** ** PDF fingerprints *)













(** ** Discovery *)

Lemma str_eqb_sym : forall a b, str_eqb a b = str_eqb b a.
Proof.
  intros a b. destruct (str_eqb a b) eqn:E, (str_eqb b a) eqn:F; try reflexivity.
  - apply str_eqb_eq in E. subst. rewrite str_eqb_refl in F. discriminate.
  - apply str_eqb_eq in F. subst. rewrite str_eqb_refl in E. discriminate.
Qed.

Lemma at_path_name_false : forall d n e,
  str_eqb n (fname (snd e)) = false -> at_path d n e = false.
Proof.
  intros d n [d' g] H. unfold at_path. cbn in *. rewrite str_eqb_sym, H.
  apply andb_false_r.
Qed.

Ltac close_unmentioned Hne :=
  repeat (apply Forall_cons; [cbn; first [reflexivity | exact Hne] |]); apply Forall_nil.

(** Processing one file leaves alone every entry under another name, and
    none of its audit actions names that other file. *)
Lemma process_file_frame : forall sha256 pats reg orc fi s m e,
  str_eqb (fi_name fi) m = false -> In e (st_fs s) -> fname (snd e) = m ->
  let r := process_file_enhanced sha256 pats reg orc fi s in
  In e (st_fs (snd r)) /\
  exists new, st_trace (snd r) = st_trace s ++ new /\
              Forall (fun a => mentions m a = false) new.
Proof.
  intros sha256 pats reg orc fi s m e Hne He Hm r. subst r.
  assert (Hat : forall d, at_path d (fi_name fi) e = false)
    by (intros d; apply at_path_name_false; rewrite Hm; exact Hne).
  unfold_pipeline.
  generalize (match extract_account_from_filename (fi_name fi) with
              | Some a => VStr a | None => VNone end). intros acc.
  split_matches.
  all: cbn -[detect_broker_tiered extract_period_from_filename
             extract_account_from_filename is_broker_supported py firstn].
  all: simpl_state.
  all: split; [first [ exact He
                     | match goal with
                       | H : fs_rename _ _ _ _ _ = Some _ |- _ =>
                           exact (fs_rename_frame _ _ _ _ _ _ e H He (Hat _) (Hat _))
                       end ]|].
  all: first [close_trace | exists []; split; [symmetry; apply app_nil_r|]].
  all: close_unmentioned Hne.
Qed.

Lemma process_all_frame : forall sha256 pats reg orc L s m e,
  Forall (fun fi => str_eqb (fi_name fi) m = false) L ->
  In e (st_fs s) -> fname (snd e) = m ->
  let r := process_all sha256 pats reg orc L s in
  In e (st_fs (snd r)) /\
  exists new, st_trace (snd r) = st_trace s ++ new /\
              Forall (fun a => mentions m a = false) new.
Proof.
  intros sha256 pats reg orc L. induction L as [|fi L IH]; intros s m e HL He Hm r; subst r.
  - split; [exact He|]. exists []. split; [symmetry; apply app_nil_r | constructor].
  - inversion_clear HL as [|? ? Hfi HL'].
    destruct (process_file_frame sha256 pats reg orc fi s m e Hfi He Hm)
      as [He1 (new1 & Ht1 & Hn1)].
    cbn [process_all]. cbv [bind bump modify ret].
    destruct (process_file_enhanced sha256 pats reg orc fi s) as [[b|] s1] eqn:E;
      cbn [fst snd] in *.
    + cbv beta iota. cbn [fst snd].
      destruct (IH (with_stats (inc_processed (st_stats s1)) s1) m e HL' He1 Hm)
        as [He2 (new2 & Ht2 & Hn2)].
      split; [exact He2|]. exists (new1 ++ new2).
      split; [rewrite Ht2; cbn; rewrite Ht1, app_assoc; reflexivity|].
      apply Forall_app. split; assumption.
    + split; [exact He1|]. exists new1. split; assumption.
Qed.

Lemma scan_directory_spec : forall fs d fi,
  In fi (scan_directory fs d) ->
  exists g, In (d, g) fs /\ fi = get_file_info d g /\ is_supported_file g = true.
Proof.
  intros fs d fi H. unfold scan_directory in H.
  apply in_map_iff in H as (g & <- & Hg). apply filter_In in Hg as [Hg Hsup].
  apply in_map_iff in Hg as ([d' g'] & Eg & Hin). cbn in Eg. subst g'.
  apply filter_In in Hin as [Hin Hd]. cbn in Hd.
  assert (d' = d) by (destruct d, d'; first [reflexivity | discriminate]). subst d'.
  exists g. split; [exact Hin|]. split; [reflexivity | exact Hsup].
Qed.

(** C10: the files discovered in the inbox are exactly entries that are
    regular, have a supported extension (lower-cased) and a size above
    zero. An inbox file failing that test (zero bytes, unsupported
    extension, not a regular file), in an inbox where no other entry has
    its name, is still in the inbox after [import_reports] (whatever the
    broker filter and [dry_run]), and no action of the run names it. *)
Theorem C10_only_supported_files_discovered :
  forall sha256 pats reg orc source_exists mkdir_ok broker dry_run s f,
  (forall fi, In fi (scan_directory (st_fs s) Inbox) ->
     exists g, In (Inbox, g) (st_fs s) /\ fi = get_file_info Inbox g /\
       fregular g = true /\ str_in (lower (suffix (fname g))) supported_extensions = true /\
       0 < fsize g) /\
  (In (Inbox, f) (st_fs s) -> is_supported_file f = false ->
   (forall g, In (Inbox, g) (st_fs s) -> fname g = fname f -> g = f) ->
   let r := import_reports sha256 pats reg orc source_exists mkdir_ok broker dry_run s in
   In (Inbox, f) (st_fs (snd r)) /\
   exists new, st_trace (snd r) = st_trace s ++ new /\
               Forall (fun a => mentions (fname f) a = false) new).
Proof.
  intros sha256 pats reg orc source_exists mkdir_ok broker dry_run s f. split.
  - intros fi H. destruct (scan_directory_spec _ _ _ H) as (g & Hin & -> & Hs).
    exists g. unfold is_supported_file in Hs.
    apply andb_prop in Hs as [Hs Hsz]. apply andb_prop in Hs as [Hext Hreg].
    repeat split; try assumption. apply Z.ltb_lt. exact Hsz.
  - intros Hf Hunsup Huniq r. subst r.
    assert (Hscan : Forall (fun fi => str_eqb (fi_name fi) (fname f) = false)
                           (scan_directory (st_fs s) Inbox)).
    { apply Forall_forall. intros fi Hfi.
      destruct (scan_directory_spec _ _ _ Hfi) as (g & Hin & -> & Hs). cbn.
      destruct (str_eqb (fname g) (fname f)) eqn:E; [|reflexivity].
      apply str_eqb_eq in E. rewrite (Huniq g Hin E) in Hs. congruence. }
    unfold import_reports, scan_inbox.
    destruct source_exists, mkdir_ok; cbv [bind get ret raise negb]; cbv beta iota; cbn [fst snd];
      try (split; [exact Hf|]; exists []; split; [symmetry; apply app_nil_r | constructor]).
    destruct (scan_directory (st_fs s) Inbox) as [|fi0 L0] eqn:Escan.
    + split; [exact Hf|]. exists []. split; [symmetry; apply app_nil_r | constructor].
    + destruct dry_run.
      * split; [exact Hf|]. exists []. split; [symmetry; apply app_nil_r | constructor].
      * assert (Hfilter : forall p, Forall (fun fi => str_eqb (fi_name fi) (fname f) = false)
                                           (filter p (fi0 :: L0))).
        { intros p. apply Forall_forall. intros fi Hfi. apply filter_In in Hfi as [Hfi _].
          exact (proj1 (Forall_forall _ _) Hscan fi Hfi). }
        destruct broker as [[|c b]|];
          match goal with |- context [process_all sha256 pats reg orc ?L' s] => set (L := L') end;
          assert (HL : Forall (fun fi => str_eqb (fi_name fi) (fname f) = false) L)
            by (subst L; first [exact Hscan | apply Hfilter]).
        all: destruct (process_all_frame sha256 pats reg orc L s (fname f) (Inbox, f) HL Hf eq_refl)
          as [He (new & Ht & Hn)].
        all: destruct (process_all sha256 pats reg orc L s) as [[u|] s1] eqn:E; cbn [fst snd] in *.
        all: try (cbn [emit modify bind ret fst snd st_fs st_trace with_trace];
           split; [exact He|]; exists (new ++ [AOpLog]);
           split; [rewrite Ht, app_assoc; reflexivity|];
           apply Forall_app; split; [exact Hn | repeat constructor]).
        all: split; [exact He|]; exists new; split; assumption.
Qed.

Definition empty_file : file :=
  {| fname := py "empty.html"; fsize := 0; fregular := true; ftext := Some [] |}.

Definition st_mixed : state :=
  {| st_fs := [(Inbox, plain_file); (Inbox, empty_file)]; st_reports := []; st_trace := [];
     st_stats := stats0 |}.

Lemma C10_only_supported_files_discovered_witness :
  In (Inbox, empty_file)
     (st_fs (snd (import_reports (fun t => t) [] [] orc_ok true true None false st_mixed))).
Proof.
  destruct (C10_only_supported_files_discovered (fun t => t) [] [] orc_ok true true None false
              st_mixed empty_file) as [_ H].
  refine (proj1 (H ltac:(right; left; reflexivity) ltac:(vm_compute; reflexivity) _)).
  intros g [E | [E | []]] Hn.
  - injection E as <-. vm_compute in Hn. discriminate Hn.
  - injection E as <-. reflexivity.
Defined.


(** * More of the code *)

(** [register_parser]: [PARSER_REGISTRY[broker] = parser_class]; a dict
    assignment keeps an existing key in place and appends a new one. *)
Fixpoint register_parser (reg : registry) (broker : str) (p : parser) : registry :=
  match reg with
  | [] => [(broker, p)]
  | (b, q) :: reg' =>
      if str_eqb broker b then (b, p) :: reg'
      else (b, q) :: register_parser reg' broker p
  end.

(** [list_supported_brokers]: [list(PARSER_REGISTRY.keys())]. *)
Definition list_supported_brokers (reg : registry) : list str := map fst reg.

(** [get_parser]: [None] is the [ValueError] (no class registered) or the
    exception of the constructor. *)
Definition get_parser (reg : registry) (broker : str) : option parser :=
  match registry_get reg broker with
  | Some p => if instantiate_ok p then Some p else None
  | None => None
  end.

Lemma registry_get_register_same : forall reg b p,
  registry_get (register_parser reg b p) b = Some p.
Proof.
  induction reg as [|[b' q] reg IH]; intros b p; cbn.
  - rewrite str_eqb_refl. reflexivity.
  - destruct (str_eqb b b') eqn:E; cbn; rewrite E; [reflexivity | apply IH].
Qed.

Lemma registry_get_register_other : forall reg b p k,
  str_eqb k b = false ->
  registry_get (register_parser reg b p) k = registry_get reg k.
Proof.
  induction reg as [|[b' q] reg IH]; intros b p k Hk; cbn.
  - rewrite Hk. reflexivity.
  - destruct (str_eqb b b') eqn:E; cbn.
    + apply str_eqb_eq in E. subst b'. rewrite Hk. reflexivity.
    + destruct (str_eqb k b'); [reflexivity | apply IH; exact Hk].
Qed.

Lemma keys_register : forall reg b p,
  list_supported_brokers (register_parser reg b p) =
  if existsb (str_eqb b) (list_supported_brokers reg)
  then list_supported_brokers reg
  else list_supported_brokers reg ++ [b].
Proof.
  unfold list_supported_brokers.
  induction reg as [|[b' q] reg IH]; intros b p; cbn; [reflexivity|].
  destruct (str_eqb b b') eqn:E; cbn; [reflexivity|].
  rewrite IH. destruct (existsb (str_eqb b) (map fst reg)); reflexivity.
Qed.

Lemma in_keys_existsb : forall l b, existsb (str_eqb b) l = true <-> In b l.
Proof.
  intros l b. rewrite existsb_exists. split.
  - intros (x & Hx & E). apply str_eqb_eq in E. subst x. exact Hx.
  - intros H. exists b. split; [exact H | apply str_eqb_refl].
Qed.

(** X1: after [register_parser(b, P)], [get_parser(b)] returns the new parser (or fails when its constructor raises), [is_broker_supported(b)] holds, and every other broker's entry is unchanged. *)
Theorem register_parser_lookup : forall reg b p k,
  get_parser (register_parser reg b p) b = (if instantiate_ok p then Some p else None) /\
  is_broker_supported (register_parser reg b p) b = true /\
  (str_eqb k b = false ->
   registry_get (register_parser reg b p) k = registry_get reg k).
Proof.
  intros reg b p k. unfold get_parser, is_broker_supported.
  rewrite registry_get_register_same. split; [reflexivity|]. split; [reflexivity|].
  apply registry_get_register_other.
Qed.

(** X2: a registry without duplicate keys keeps that property under [register_parser]; re-registering a broker leaves [list_supported_brokers()] as it was, a new broker is appended at its end. *)
Theorem register_parser_keys : forall reg b p,
  NoDup (list_supported_brokers reg) ->
  NoDup (list_supported_brokers (register_parser reg b p)) /\
  list_supported_brokers (register_parser reg b p) =
  (if existsb (str_eqb b) (list_supported_brokers reg)
   then list_supported_brokers reg
   else list_supported_brokers reg ++ [b]).
Proof.
  intros reg b p Hnd. rewrite keys_register. split; [|reflexivity].
  destruct (existsb (str_eqb b) (list_supported_brokers reg)) eqn:E; [exact Hnd|].
  apply NoDup_app; [exact Hnd | constructor; [intros [] | constructor] |].
  intros x Hx [<- | []]. apply (proj2 (in_keys_existsb _ _)) in Hx. congruence.
Qed.

(** X3: once [register_parser(b, P)] is done with an instantiable [P], [_parse_file_content] for broker [b] runs [P.parse] on the content and returns its dict with [success] when it is a non-empty dict, [invalid_parser_output] for an empty dict or a non-dict, [parse_failed] when it raises; it touches neither the files nor the reports. *)
Theorem register_parser_dispatch : forall reg b p c s,
  instantiate_ok p = true ->
  let r := _parse_file_content (register_parser reg b p) b c s in
  fst r = Some (match parse p c with
                | ParseRaises => (None, ParseFailed)
                | ParseReturns (Some d) =>
                    if dict_truthy d then (Some d, Success) else (None, InvalidParserOutput)
                | ParseReturns None => (None, InvalidParserOutput)
                end) /\
  st_trace (snd r) = st_trace s ++ [ASupportCheck b; AGetParser b; AParse b] /\
  st_fs (snd r) = st_fs s /\ st_reports (snd r) = st_reports s.
Proof.
  intros reg b p c s Hok r. subst r.
  unfold _parse_file_content, is_broker_supported.
  rewrite registry_get_register_same, Hok. cbn.
  rewrite <- !app_assoc. cbn.
  destruct (parse p c) as [|[d|]]; cbn; [| destruct d |]; cbn; repeat split.
Qed.

Definition echo_parser : parser :=
  {| instantiate_ok := true; parse := fun c => ParseReturns (Some [(py "raw", VStr c)]) |}.

Lemma register_parser_keys_witness :
  NoDup (list_supported_brokers [(py "sber", echo_parser)]) /\
  NoDup (list_supported_brokers (register_parser [(py "sber", echo_parser)] (py "vtb") echo_parser)) /\
  list_supported_brokers (register_parser [(py "sber", echo_parser)] (py "vtb") echo_parser) =
  (if existsb (str_eqb (py "vtb")) (list_supported_brokers [(py "sber", echo_parser)])
   then list_supported_brokers [(py "sber", echo_parser)]
   else list_supported_brokers [(py "sber", echo_parser)] ++ [py "vtb"]).
Proof.
  assert (H : NoDup (list_supported_brokers [(py "sber", echo_parser)]))
    by (repeat constructor; intros []).
  split; [exact H | apply (register_parser_keys _ _ _ H)].
Defined.

Lemma register_parser_dispatch_witness :
  st_fs (snd (_parse_file_content (register_parser [] (py "sber") echo_parser) (py "sber")
                (py "hello") st_plain)) = st_fs st_plain.
Proof.
  destruct (register_parser_dispatch [] (py "sber") echo_parser (py "hello") st_plain
              ltac:(reflexivity)) as [_ [_ [H _]]].
  exact H.
Defined.

Fixpoint digits_val (ds : str) : Z :=
  match ds with [] => 0 | d :: ds' => (d - 48) + 10 * digits_val ds' end.

Lemma digits_rev_val : forall fuel n, 0 <= n < 10 ^ Z.of_nat fuel ->
  digits_val (digits_rev fuel n) = n.
Proof.
  induction fuel as [|f IH]; intros n Hn.
  - cbn in Hn. cbn. lia.
  - rewrite Nat2Z.inj_succ, Z.pow_succ_r in Hn by lia. cbn [digits_rev].
    destruct (n <? 10) eqn:E.
    + apply Z.ltb_lt in E. cbn [digits_val]. rewrite Z.mod_small by lia. lia.
    + apply Z.ltb_ge in E. cbn [digits_val]. rewrite IH.
      * pose proof (Z.div_mod n 10). lia.
      * split; [apply Z.div_pos; lia|]. apply Z.div_lt_upper_bound; lia.
Qed.

Lemma str_of_Z_inj : forall a b, 0 <= a < 10 ^ 64 -> 0 <= b < 10 ^ 64 ->
  str_of_Z a = str_of_Z b -> a = b.
Proof.
  unfold str_of_Z. intros a b Ha Hb E.
  apply (f_equal (@rev Z)) in E. rewrite !rev_involutive in E.
  rewrite <- (digits_rev_val 64 a), <- (digits_rev_val 64 b) by exact Ha || exact Hb.
  rewrite E. reflexivity.
Qed.

Lemma stem_suffix : forall n, stem n ++ suffix n = n.
Proof.
  intros n. unfold stem, suffix.
  destruct (_ && _); [apply firstn_skipn | apply app_nil_r].
Qed.

Definition candidate (n : str) (k : Z) : str :=
  stem n ++ py "_" ++ str_of_Z k ++ suffix n.

Lemma candidate_inj : forall n a b, 0 <= a < 10 ^ 64 -> 0 <= b < 10 ^ 64 ->
  candidate n a = candidate n b -> a = b.
Proof.
  unfold candidate. intros n a b Ha Hb E.
  apply app_inv_head in E. change (py "_") with [95] in E. cbn [app] in E.
  injection E as E.
  apply app_inv_tail in E. apply str_of_Z_inj; assumption.
Qed.

Lemma candidate_not_name : forall n k, candidate n k <> n.
Proof.
  intros n k E. apply (f_equal (@List.length Z)) in E.
  rewrite <- (stem_suffix n) in E at 2. unfold candidate in E.
  rewrite !length_app in E. change (py "_") with [95] in E. cbn [List.length] in E. lia.
Qed.

Lemma free_name_cases : forall fs d base ext fuel c,
  let r := free_name fs d base ext c fuel in
  find_file fs d r = None \/
  (r = base ++ py "_" ++ str_of_Z (c + Z.of_nat fuel) ++ ext /\
   forall j, c <= j < c + Z.of_nat fuel ->
     find_file fs d (base ++ py "_" ++ str_of_Z j ++ ext) <> None).
Proof.
  intros fs d base ext fuel. induction fuel as [|f IH]; intros c r; subst r; cbn [free_name].
  - right. split; [rewrite Z.add_0_r; reflexivity | intros j Hj; lia].
  - destruct (find_file fs d (base ++ py "_" ++ str_of_Z c ++ ext)) eqn:E.
    + destruct (IH (c + 1)) as [H | [H1 H2]]; [left; exact H | right].
      split; [rewrite H1; f_equal; f_equal; f_equal; f_equal; lia|].
      intros j Hj. destruct (Z.eq_dec j c) as [->|Hne]; [congruence|].
      apply H2. lia.
    + left. exact E.
Qed.

Definition names_at (fs : filesystem) (d : dir) : list str :=
  map (fun e => fname (snd e)) (filter (fun e => dir_eqb (fst e) d) fs).

Lemma find_file_names_at : forall fs d x, find_file fs d x <> None -> In x (names_at fs d).
Proof.
  intros fs d x H. unfold find_file in H.
  destruct (find (at_path d x) fs) as [[d' g]|] eqn:E; [|congruence].
  apply find_some in E as [Hin Hp]. unfold at_path in Hp. cbn in Hp.
  apply andb_prop in Hp as [Hd Hn]. apply str_eqb_eq in Hn.
  unfold names_at. apply in_map_iff. exists (d', g). split; [exact Hn|].
  apply filter_In. split; [exact Hin | exact Hd].
Qed.

Lemma names_at_length : forall fs d, (List.length (names_at fs d) <= List.length fs)%nat.
Proof.
  intros fs d. unfold names_at. rewrite length_map. apply filter_length_le.
Qed.

Lemma NoDup_map_on : forall (A B : Type) (f : A -> B) l,
  (forall x y, In x l -> In y l -> f x = f y -> x = y) -> NoDup l -> NoDup (map f l).
Proof.
  intros A B f l. induction l as [|a l IH]; intros Hinj Hnd; cbn; [constructor|].
  inversion_clear Hnd as [|? ? Hna Hnd'].
  constructor.
  - intros Hin. apply in_map_iff in Hin as (y & Ey & Hy).
    assert (y = a) by (apply Hinj; [right; exact Hy | left; reflexivity | exact Ey]).
    subst y. contradiction.
  - apply IH; [|exact Hnd']. intros x y Hx Hy. apply Hinj; right; assumption.
Qed.

Lemma safe_move_target_free : forall fs d n,
  Z.of_nat (List.length fs) < 10 ^ 64 ->
  find_file fs d (safe_move_target fs d n) = None.
Proof.
  intros fs d n Hlen. unfold safe_move_target.
  destruct (find_file fs d n) eqn:En; [|exact En].
  set (L := List.length fs) in *.
  destruct (free_name_cases fs d (stem n) (suffix n) L 1) as [H | [_ Hall]]; [exact H|].
  exfalso.
  set (cands := n :: map (fun k => candidate n (Z.of_nat k)) (seq 1 L)).
  assert (Hnd : NoDup cands).
  { constructor.
    - intros Hin. apply in_map_iff in Hin as (k & Ek & _).
      exact (candidate_not_name n _ Ek).
    - apply NoDup_map_on; [|apply seq_NoDup].
      intros x y Hx Hy E. apply in_seq in Hx, Hy.
      apply Nat2Z.inj. apply (candidate_inj n); [lia | lia | exact E]. }
  assert (Hincl : incl cands (names_at fs d)).
  { intros x [<- | Hx].
    - apply find_file_names_at. congruence.
    - apply in_map_iff in Hx as (k & <- & Hk). apply in_seq in Hk.
      apply find_file_names_at. apply Hall. lia. }
  pose proof (NoDup_incl_length Hnd Hincl) as Hle.
  pose proof (names_at_length fs d) as Hle2.
  subst cands. cbn in Hle. rewrite length_map, length_seq in Hle. fold L in Hle2. lia.
Qed.

Lemma find_file_none_at : forall fs d x e,
  find_file fs d x = None -> In e fs -> at_path d x e = false.
Proof.
  intros fs d x e H Hin. unfold find_file in H.
  destruct (find (at_path d x) fs) as [[? ?]|] eqn:E; [discriminate|].
  exact (find_none _ _ E e Hin).
Qed.

(** X4: [safe_move_file] never overwrites: when it succeeds, the file is found at the source, the destination name it uses (the given one or [stem_k.suffix]) names no existing file of the destination directory, the file is there under that name, and every other entry is kept. *)
Theorem safe_move_file_no_overwrite : forall fs src n dst fs',
  Z.of_nat (List.length fs) < 10 ^ 64 ->
  safe_move_file fs src n dst = Some fs' ->
  (forall e, In e fs -> at_path src n e = false -> In e fs') /\
  exists f, find_file fs src n = Some f /\
    find_file fs dst (safe_move_target fs dst n) = None /\
    In (dst, rename_file f (safe_move_target fs dst n)) fs'.
Proof.
  intros fs src n dst fs' Hlen H.
  pose proof (safe_move_target_free fs dst n Hlen) as Hfree.
  unfold safe_move_file, fs_rename in H.
  destruct (find_file fs src n) as [f|] eqn:Ef; [|discriminate].
  injection H as <-. split.
  - intros e Hin Hsrc. apply in_or_app. left. apply filter_In.
    split; [exact Hin|]. rewrite Hsrc, (find_file_none_at _ _ _ _ Hfree Hin). reflexivity.
  - exists f. split; [reflexivity|]. split; [exact Hfree|].
    apply in_or_app. right. left. reflexivity.
Qed.

Definition report_a : file :=
  {| fname := py "a.html"; fsize := 10; fregular := true; ftext := Some (py "new") |}.
Definition archived_a : file :=
  {| fname := py "a.html"; fsize := 10; fregular := true; ftext := Some (py "old") |}.
Definition archived_a1 : file :=
  {| fname := py "a_1.html"; fsize := 10; fregular := true; ftext := Some (py "older") |}.
Definition fs_taken : filesystem :=
  [(Inbox, report_a); (Imported, archived_a); (Imported, archived_a1)].

Lemma safe_move_file_no_overwrite_witness :
  safe_move_target fs_taken Imported (py "a.html") = py "a_2.html" /\
  (forall e, In e fs_taken -> at_path Inbox (py "a.html") e = false ->
     In e [(Imported, archived_a); (Imported, archived_a1);
           (Imported, rename_file report_a (py "a_2.html"))]) /\
  exists f, find_file fs_taken Inbox (py "a.html") = Some f /\
    find_file fs_taken Imported (safe_move_target fs_taken Imported (py "a.html")) = None /\
    In (Imported, rename_file f (safe_move_target fs_taken Imported (py "a.html")))
       [(Imported, archived_a); (Imported, archived_a1);
        (Imported, rename_file report_a (py "a_2.html"))].
Proof.
  split; [vm_compute; reflexivity|].
  apply (safe_move_file_no_overwrite fs_taken Inbox (py "a.html") Imported).
  - vm_compute. reflexivity.
  - vm_compute. reflexivity.
Defined.

(** [self.broker_patterns] of [FileManager.__init__]. *)
Definition fm_broker_patterns : list (str * list str) :=
  [ (py "sber", [ [1089; 1073; 1077; 1088; 1073; 1072; 1085; 1082];
                  [1089; 1073; 1077; 1088];
                  py "sber";
                  [1086; 1090; 1095; 1077; 1090; 32; 1073; 1088; 1086; 1082; 1077; 1088; 1072];
                  [1073; 1088; 1086; 1082; 1077; 1088; 1089; 1082; 1080; 1081; 32;
                   1086; 1090; 1095; 1077; 1090] ]);
    (py "tinkoff", [ [1090; 1080; 1085; 1100; 1082; 1086; 1092; 1092];
                     py "tinkoff";
                     [1090; 45; 1073; 1072; 1085; 1082];
                     [1090; 32; 1073; 1072; 1085; 1082] ]);
    (py "vtb", [ [1074; 1090; 1073];
                 py "vtb";
                 [1074; 1090; 1073; 32; 1082; 1072; 1087; 1080; 1090; 1072; 1083] ]);
    (py "gazprombank", [ [1075; 1072; 1079; 1087; 1088; 1086; 1084; 1073; 1072; 1085; 1082];
                         py "gazprombank";
                         [1075; 1072; 1079; 1087; 1088; 1086; 1084] ]);
    (py "alpha", [ [1072; 1083; 1100; 1092; 1072];
                   py "alpha";
                   [1072; 1083; 1100; 1092; 1072; 45; 1073; 1072; 1085; 1082] ]) ].

(** One literal character [p] of a pattern compiled with [re.IGNORECASE]
    ([re._compiler._compile]): a literal that is not [unicode_iscased]
    matches only itself; a cased one becomes [LITERAL_UNI_IGNORE lo], or
    [IN_UNI_IGNORE] over [lo] and its [_EXTRA_CASES], with [lo] its simple
    lowercase, and [_sre] compares the simple lowercase of the subject
    character with them. *)
Fixpoint extra_lookup (c : Z) (es : list (Z * list Z)) : list Z :=
  match es with
  | [] => []
  | (k, v) :: es' => if Z.eqb c k then v else extra_lookup c es'
  end.

Definition ignorecase_char_match (p ch : Z) : bool :=
  if in_ranges p sre_cased_ranges then
    let lo := to_lower p in
    existsb (Z.eqb (to_lower ch)) (lo :: extra_lookup lo extra_cases)
  else Z.eqb ch p.

(** A match of the literal pattern [p] at the start of [s]. *)
Fixpoint startswith_ignorecase (s p : str) : bool :=
  match p, s with
  | [], _ => true
  | x :: p', y :: s' => ignorecase_char_match x y && startswith_ignorecase s' p'
  | _ :: _, [] => false
  end.

(** [re.search(pattern, text, re.IGNORECASE) is not None] for a literal
    pattern. *)
Fixpoint search_ignorecase (s p : str) : bool :=
  match s with
  | [] => startswith_ignorecase [] p
  | _ :: s' => startswith_ignorecase s p || search_ignorecase s' p
  end.

(** [len(re.findall(pattern, text, re.IGNORECASE))] for a pattern without
    metacharacters (all of the table's are literals; none is empty):
    matches are searched left to right and a match resumes the scan at its
    end.  [skip] counts the characters of the last match still to pass
    over. *)
Fixpoint findall_count (s p : str) (skip : nat) : nat :=
  match s with
  | [] => O
  | _ :: s' =>
      match skip with
      | S k => findall_count s' p k
      | O => if startswith_ignorecase s p
             then S (findall_count s' p (Nat.pred (List.length p)))
             else findall_count s' p O
      end
  end.

(** [text_to_analyze = f"{file_name} {content}".lower()] *)
Definition analyzed_text (content file_name : str) : str :=
  lower (file_name ++ [32] ++ content).

Definition pattern_score (text : str) (patterns : list str) : nat :=
  fold_left (fun score pattern => (score + findall_count text pattern O)%nat) patterns O.

(** [broker_scores]: the brokers with a positive score, in table order. *)
Definition broker_scores (table : list (str * list str)) (text : str) : list (str * nat) :=
  filter (fun e => Nat.ltb O (snd e))
         (map (fun e => (fst e, pattern_score text (snd e))) table).

(** [max(broker_scores, key=broker_scores.get)]: the first of the maximal
    keys (a later key replaces the best only with a strictly larger score). *)
Fixpoint pick_max (best : str * nat) (l : list (str * nat)) : str * nat :=
  match l with
  | [] => best
  | x :: l' => if Nat.ltb (snd best) (snd x) then pick_max x l' else pick_max best l'
  end.

Definition detect_broker (table : list (str * list str)) (content file_name : str)
  : option str :=
  match broker_scores table (analyzed_text content file_name) with
  | [] => None
  | x :: l => Some (fst (pick_max x l))
  end.

Lemma pick_max_spec : forall l best,
  exists pre post, best :: l = pre ++ pick_max best l :: post /\
    Forall (fun y => (snd y < snd (pick_max best l))%nat) pre /\
    Forall (fun y => (snd y <= snd (pick_max best l))%nat) post.
Proof.
  induction l as [|y l IH]; intros best; cbn [pick_max].
  - exists [], []. split; [reflexivity | split; constructor].
  - destruct (Nat.ltb (snd best) (snd y)) eqn:E.
    + apply Nat.ltb_lt in E. destruct (IH y) as (pre & post & Eq & Hpre & Hpost).
      set (x := pick_max y l) in *.
      assert (Hy : (snd y <= snd x)%nat).
      { destruct pre as [|z pre]; cbn in Eq; injection Eq as Ez Erest.
        - rewrite Ez. lia.
        - subst z. inversion_clear Hpre as [|? ? Hz _]. lia. }
      exists (best :: pre), post. split; [rewrite Eq; reflexivity|].
      split; [constructor; [cbn; lia | exact Hpre] | exact Hpost].
    + apply Nat.ltb_ge in E. destruct (IH best) as (pre & post & Eq & Hpre & Hpost).
      set (x := pick_max best l) in *.
      destruct pre as [|z pre]; cbn in Eq; injection Eq as Ez Erest.
      * exists [], (y :: post). rewrite <- Ez. cbn. split; [rewrite Erest; reflexivity|].
        split; [constructor|]. constructor; [cbn; lia | rewrite <- Ez in Hpost; exact Hpost].
      * subst z. inversion_clear Hpre as [|? ? Hb Hpre'].
        exists (best :: y :: pre), post. split; [rewrite Erest; reflexivity|].
        split; [|exact Hpost]. constructor; [exact Hb|]. constructor; [cbn in *; lia | exact Hpre'].
Qed.

Lemma findall_count_pos : forall p s, p <> [] ->
  (0 < findall_count s p O)%nat <-> search_ignorecase s p = true.
Proof.
  intros p s Hp. induction s as [|c s IH]; cbn [findall_count search_ignorecase].
  - destruct p; [congruence|]. cbn. split; [lia | discriminate].
  - destruct (startswith_ignorecase (c :: s) p); cbn; [split; [reflexivity | lia] | exact IH].
Qed.

Lemma fold_score_zero : forall text ps acc,
  fold_left (fun score pattern => (score + findall_count text pattern O)%nat) ps acc = O <->
  acc = O /\ Forall (fun p => findall_count text p O = O) ps.
Proof.
  intros text. induction ps as [|p ps IH]; intros acc; cbn.
  - split; [intros ->; split; [reflexivity | constructor] | intros [-> _]; reflexivity].
  - rewrite IH. split.
    + intros [H1 H2]. split; [lia|]. constructor; [lia | exact H2].
    + intros [-> H]. inversion_clear H. split; [lia | assumption].
Qed.

Lemma filter_nil_iff : forall (A : Type) (f : A -> bool) l,
  filter f l = [] <-> Forall (fun x => f x = false) l.
Proof.
  intros A f. induction l as [|x l IH]; cbn; [split; [constructor | reflexivity]|].
  destruct (f x) eqn:E; split.
  - discriminate.
  - intros H. inversion H; congruence.
  - intros H. constructor; [exact E | apply IH; exact H].
  - intros H. inversion_clear H. apply IH. assumption.
Qed.

(** X5: when [FileManager.detect_broker] returns a broker, its score is positive, strictly greater than the score of every broker before it in the pattern table and at least that of every broker after it (ties go to the first). *)
Theorem detect_broker_best : forall table content file_name b,
  detect_broker table content file_name = Some b ->
  exists pre sc post,
    broker_scores table (analyzed_text content file_name) = pre ++ (b, sc) :: post /\
    (0 < sc)%nat /\
    Forall (fun e => (snd e < sc)%nat) pre /\
    Forall (fun e => (snd e <= sc)%nat) post.
Proof.
  intros table content file_name b H. unfold detect_broker in H.
  destruct (broker_scores table (analyzed_text content file_name)) as [|x l] eqn:E;
    [discriminate|].
  injection H as Hb.
  destruct (pick_max_spec l x) as (pre & post & Eq & Hpre & Hpost).
  destruct (pick_max x l) as [b' sc] eqn:Ep. cbn in Hb. subst b'.
  exists pre, sc, post. split; [exact Eq|]. split; [|split; assumption].
  assert (Hin : In (b, sc) (broker_scores table (analyzed_text content file_name))).
  { rewrite E, Eq. apply in_or_app. right. left. reflexivity. }
  unfold broker_scores in Hin. apply filter_In in Hin as [_ Hpos].
  apply Nat.ltb_lt in Hpos. exact Hpos.
Qed.

Lemma detect_broker_none_iff : forall table content file_name,
  Forall (fun e => Forall (fun p => p <> []) (snd e)) table ->
  detect_broker table content file_name = None <->
  Forall (fun e => Forall (fun p => search_ignorecase (analyzed_text content file_name) p = false)
                          (snd e)) table.
Proof.
  intros table content file_name Hne.
  set (text := analyzed_text content file_name).
  assert (Hs : broker_scores table text = [] <->
               Forall (fun e => Forall (fun p => search_ignorecase text p = false) (snd e)) table).
  { unfold broker_scores. rewrite filter_nil_iff, Forall_map.
    split; intros H; apply Forall_forall; intros e He;
      pose proof (proj1 (Forall_forall _ _) Hne e He) as Hp;
      pose proof (proj1 (Forall_forall _ _) H e He) as Hz; cbn [fst snd] in Hz |- *.
    - apply Nat.ltb_ge in Hz. assert (Hz0 : pattern_score text (snd e) = O) by lia.
      apply fold_score_zero in Hz0 as [_ Hz0].
      apply Forall_forall. intros p Hpin.
      pose proof (proj1 (Forall_forall _ _) Hz0 p Hpin) as H0. cbn in H0.
      destruct (search_ignorecase text p) eqn:C; [|reflexivity].
      apply (findall_count_pos p text) in C; [lia|].
      exact (proj1 (Forall_forall _ _) Hp p Hpin).
    - apply Nat.ltb_ge. enough (pattern_score text (snd e) = O) by lia.
      apply fold_score_zero. split; [reflexivity|].
      apply Forall_forall. intros p Hpin.
      pose proof (proj1 (Forall_forall _ _) Hz p Hpin) as C.
      destruct (findall_count text p O) eqn:F; [reflexivity|].
      assert (Hpos : (0 < findall_count text p O)%nat) by lia.
      apply findall_count_pos in Hpos; [congruence|].
      exact (proj1 (Forall_forall _ _) Hp p Hpin). }
  unfold detect_broker. fold text. rewrite <- Hs.
  destruct (broker_scores table text); split; congruence.
Qed.

(** X6: [FileManager.detect_broker] returns [None] exactly when no pattern of its table is found by [re.search(pattern, text, re.IGNORECASE)] in the lower-cased text [file_name + ' ' + content]. *)
Theorem detect_broker_none : forall content file_name,
  detect_broker fm_broker_patterns content file_name = None <->
  Forall (fun e => Forall (fun p => search_ignorecase (analyzed_text content file_name) p = false)
                          (snd e)) fm_broker_patterns.
Proof.
  intros content file_name. apply detect_broker_none_iff.
  repeat constructor; discriminate.
Qed.

Definition sber_text : str :=
  [1057; 1073; 1077; 1088; 1073; 1072; 1085; 1082] ++ py " tinkoff".

Lemma detect_broker_best_witness :
  detect_broker fm_broker_patterns sber_text (py "report.html") = Some (py "sber") /\
  exists pre sc post,
    broker_scores fm_broker_patterns (analyzed_text sber_text (py "report.html"))
      = pre ++ (py "sber", sc) :: post /\
    (0 < sc)%nat /\
    Forall (fun e => (snd e < sc)%nat) pre /\
    Forall (fun e => (snd e <= sc)%nat) post.
Proof.
  assert (H : detect_broker fm_broker_patterns sber_text (py "report.html") = Some (py "sber"))
    by (vm_compute; reflexivity).
  split; [exact H | exact (detect_broker_best _ _ _ _ H)].
Defined.

(** [re.search(pattern, s)] for a pattern tried at each start in turn. *)
Fixpoint re_search {A} (at_start : str -> option A) (s : str) : option A :=
  match at_start s with
  | Some g => Some g
  | None => match s with [] => None | _ :: s' => re_search at_start s' end
  end.

Fixpoint take_while (p : Z -> bool) (s : str) : str :=
  match s with
  | [] => []
  | c :: s' => if p c then c :: take_while p s' else []
  end.

(** [[A-Z0-9]] *)
Definition is_account_char (c : Z) : bool :=
  ((65 <=? c) && (c <=? 90)) || ((48 <=? c) && (c <=? 57)).

(** [([A-Z0-9]{6,10})] at one start: greedy, at most ten characters. *)
Definition match_account (s : str) : option str :=
  let run := take_while is_account_char (firstn 10 s) in
  if (6 <=? List.length run)%nat then Some run else None.

(** [(\d{2}\.\d{2}\.\d{4})] *)
Definition match_date (s : str) : option str :=
  match s with
  | d1 :: d2 :: p1 :: m1 :: m2 :: p2 :: y1 :: y2 :: y3 :: y4 :: _ =>
      if forallb is_digit [d1; d2; m1; m2; y1; y2; y3; y4]
         && Z.eqb p1 46 && Z.eqb p2 46
      then Some [d1; d2; p1; m1; m2; p2; y1; y2; y3; y4] else None
  | _ => None
  end.

(** [(\d{1,2})]: greedy. *)
Definition match_month (s : str) : option str :=
  match s with
  | d1 :: d2 :: _ =>
      if is_digit d1 then (if is_digit d2 then Some [d1; d2] else Some [d1]) else None
  | [d1] => if is_digit d1 then Some [d1] else None
  | [] => None
  end.

(** [str.zfill(width)]: zeros after a leading sign. *)
Definition zfill (s : str) (width : nat) : str :=
  let fill := repeat 48 (width - List.length s) in
  match s with
  | c :: s' => if Z.eqb c 43 || Z.eqb c 45 then c :: fill ++ s' else fill ++ s
  | [] => fill
  end.

Definition k_account : str := py "account".
Definition k_period : str := py "period".
Definition k_date : str := py "date".
Definition k_year : str := py "year".
Definition k_month : str := py "month".

(** A [Dict[str, str]] in insertion order. *)
Fixpoint meta_get (d : list (str * str)) (k : str) : option str :=
  match d with
  | [] => None
  | (k', v) :: d' => if str_eqb k k' then Some v else meta_get d' k
  end.

(** [FileManager.extract_metadata_from_filename]. *)
Definition extract_metadata_from_filename (file_name : str) : list (str * str) :=
  let found :=
    [ (k_account, re_search match_account file_name);
      (k_period, match search_yyyy_mm file_name with
                 | Some (y, m) => Some (y ++ [45] ++ m)
                 | None => None
                 end);
      (k_date, re_search match_date file_name);
      (k_year, search_year file_name);
      (k_month, re_search match_month file_name) ] in
  let metadata :=
    flat_map (fun e => match snd e with Some v => [(fst e, v)] | None => [] end) found in
  match meta_get metadata k_period, meta_get metadata k_year, meta_get metadata k_month with
  | None, Some year, Some month =>
      metadata ++ [(k_period, year ++ [45] ++ zfill month 2)]
  | _, _, _ => metadata
  end.

Lemma re_search_eq : forall A (m : str -> option A) s, re_search m s =
  match m s with
  | Some g => Some g
  | None => match s with [] => None | _ :: s' => re_search m s' end
  end.
Proof. intros A m s. destruct s; reflexivity. Qed.

Section SearchHit.
Variable A : Type.
Variable at_start : str -> option A.
Variable search : str -> option A.
Hypothesis search_eq : forall s, search s =
  match at_start s with
  | Some g => Some g
  | None => match s with [] => None | _ :: s' => search s' end
  end.

Lemma search_hit : forall s g, search s = Some g ->
  exists pre rest, s = pre ++ rest /\ at_start rest = Some g.
Proof.
  induction s as [|c s IH]; intros g H; rewrite search_eq in H.
  - destruct (at_start []) eqn:E; [|discriminate]. injection H as <-.
    exists [], []. split; [reflexivity | exact E].
  - destruct (at_start (c :: s)) eqn:E.
    + injection H as <-. exists [], (c :: s). split; [reflexivity | exact E].
    + destruct (IH g H) as (pre & rest & -> & Hr). exists (c :: pre), rest.
      split; [reflexivity | exact Hr].
Qed.

Lemma search_found : forall pre rest g, at_start rest = Some g ->
  search (pre ++ rest) <> None.
Proof.
  induction pre as [|c pre IH]; intros rest g H; rewrite search_eq; cbn.
  - rewrite H. discriminate.
  - destruct (at_start (c :: pre ++ rest)); [discriminate | exact (IH rest g H)].
Qed.

Lemma search_skip : forall pre s,
  (forall c t, In c pre -> at_start (c :: t) = None) ->
  search (pre ++ s) = search s.
Proof.
  induction pre as [|c pre IH]; intros s H; [reflexivity|].
  cbn. rewrite search_eq, H by (left; reflexivity).
  apply IH. intros c' t Hc. apply H. right. exact Hc.
Qed.
End SearchHit.

Lemma meta_lookup : forall a p d y m,
  let md := flat_map (fun e => match snd e with Some v => [(fst e, v)] | None => [] end)
              [(k_account, a); (k_period, p); (k_date, d); (k_year, y); (k_month, m)] in
  meta_get md k_period = p /\ meta_get md k_year = y /\ meta_get md k_month = m.
Proof.
  intros a p d y m md. subst md.
  destruct a, p, d, y, m; repeat split.
Qed.

Lemma meta_get_app : forall l1 l2 k, meta_get (l1 ++ l2) k =
  match meta_get l1 k with Some v => Some v | None => meta_get l2 k end.
Proof.
  induction l1 as [|[k' v] l1 IH]; intros l2 k; cbn; [reflexivity|].
  destruct (str_eqb k k'); [reflexivity | apply IH].
Qed.

Lemma match_year_some : forall s g, match_year s = Some g ->
  exists rest, s = g ++ rest /\ List.length g = 4%nat /\ forallb is_digit g = true.
Proof.
  intros s g H. destruct s as [|y1 [|y2 [|y3 [|y4 rest]]]]; try discriminate.
  cbn [match_year] in H. destruct (forallb is_digit [y1; y2; y3; y4]) eqn:E; [|discriminate].
  injection H as <-. exists rest. split; [reflexivity | split; [reflexivity | exact E]].
Qed.

Lemma match_year_digits : forall y rest,
  List.length y = 4%nat -> forallb is_digit y = true -> match_year (y ++ rest) = Some y.
Proof.
  intros y rest Hl Hd. destruct y as [|y1 [|y2 [|y3 [|y4 [|]]]]]; try discriminate.
  cbn [app match_year]. rewrite Hd. reflexivity.
Qed.

Lemma match_yyyy_mm_year : forall s g, match_yyyy_mm s = Some g -> match_year s <> None.
Proof.
  intros s g H. destruct s as [|y1 [|y2 [|y3 [|y4 rest]]]]; try discriminate.
  cbn [match_yyyy_mm] in H. destruct rest as [|m [|d1 [|d2 rest]]]; try discriminate.
  cbn [match_year]. destruct (forallb is_digit [y1; y2; y3; y4]); [discriminate|].
  cbn in H. discriminate.
Qed.

Lemma match_year_month : forall s g, match_year s = Some g ->
  match_month s = Some (firstn 2 g).
Proof.
  intros s g H. destruct (match_year_some s g H) as (rest & -> & Hl & Hd).
  destruct g as [|y1 [|y2 [|y3 [|y4 [|]]]]]; try discriminate.
  cbn in Hd. apply andb_prop in Hd as [H1 Hd]. apply andb_prop in Hd as [H2 _].
  cbn. rewrite H1, H2. reflexivity.
Qed.

Lemma search_yyyy_mm_some : forall s y m, search_yyyy_mm s = Some (y, m) ->
  List.length y = 4%nat /\ forallb is_digit y = true /\
  List.length m = 2%nat /\ forallb is_digit m = true.
Proof.
  intros s y m H. destruct (search_hit _ match_yyyy_mm search_yyyy_mm search_yyyy_mm_eq s _ H)
    as (pre & rest & _ & Hr).
  destruct rest as [|y1 [|y2 [|y3 [|y4 [|c [|d1 [|d2 rest]]]]]]]; try discriminate.
  cbn [match_yyyy_mm] in Hr.
  destruct (forallb is_digit [y1; y2; y3; y4] && Z.eqb c 45 && is_digit d1 && is_digit d2)
    eqn:E; [|discriminate].
  injection Hr as <- <-. apply andb_prop in E as [E Hd2]. apply andb_prop in E as [E Hd1].
  apply andb_prop in E as [E _].
  split; [reflexivity|]. split; [exact E|]. split; [reflexivity|]. cbn. rewrite Hd1, Hd2. reflexivity.
Qed.

Lemma search_year_iff : forall s, search_year s <> None <->
  exists pre y rest, s = pre ++ y ++ rest /\ List.length y = 4%nat /\ forallb is_digit y = true.
Proof.
  intros s. split.
  - intros H. destruct (search_year s) as [g|] eqn:E; [|congruence].
    destruct (search_hit _ match_year search_year search_year_eq s g E) as (pre & rest & -> & Hr).
    destruct (match_year_some _ _ Hr) as (rest' & -> & Hl & Hd).
    exists pre, g, rest'. split; [reflexivity | split; assumption].
  - intros (pre & y & rest & -> & Hl & Hd).
    exact (search_found _ match_year search_year search_year_eq pre (y ++ rest) y
             (match_year_digits y rest Hl Hd)).
Qed.

Lemma search_month_of_year : forall s, search_year s <> None ->
  re_search match_month s <> None.
Proof.
  intros s H. destruct (search_year s) as [g|] eqn:E; [|congruence].
  destruct (search_hit _ match_year search_year search_year_eq s g E) as (pre & rest & -> & Hr).
  exact (search_found _ match_month (re_search match_month) (re_search_eq _ match_month)
           pre rest _ (match_year_month rest g Hr)).
Qed.

Lemma search_year_of_period : forall s, search_yyyy_mm s <> None -> search_year s <> None.
Proof.
  intros s H. destruct (search_yyyy_mm s) as [g|] eqn:E; [|congruence].
  destruct (search_hit _ match_yyyy_mm search_yyyy_mm search_yyyy_mm_eq s g E)
    as (pre & rest & -> & Hr).
  destruct (match_year rest) as [y|] eqn:Ey; [|exact (False_ind _ (match_yyyy_mm_year _ _ Hr Ey))].
  exact (search_found _ match_year search_year search_year_eq pre rest y Ey).
Qed.

(** The period entry of the result, by cases on the three searches. *)
Lemma metadata_period : forall fn,
  meta_get (extract_metadata_from_filename fn) k_period =
  match search_yyyy_mm fn with
  | Some (y, m) => Some (y ++ [45] ++ m)
  | None =>
      match search_year fn, re_search match_month fn with
      | Some year, Some month => Some (year ++ [45] ++ zfill month 2)
      | _, _ => None
      end
  end.
Proof.
  intros fn. unfold extract_metadata_from_filename.
  set (p := match search_yyyy_mm fn with Some (y, m) => Some (y ++ [45] ++ m) | None => None end).
  set (a := re_search match_account fn). set (d := re_search match_date fn).
  destruct (meta_lookup a p d (search_year fn) (re_search match_month fn)) as (Hp & Hy & Hm).
  set (md := flat_map _ _) in *.
  rewrite Hp, Hy, Hm. subst p.
  destruct (search_yyyy_mm fn) as [[y m]|]; [exact Hp|].
  destruct (search_year fn), (re_search match_month fn); try exact Hp.
  rewrite meta_get_app, Hp. reflexivity.
Qed.

(** X7: [extract_metadata_from_filename] has a [period] key exactly when the file name contains four consecutive decimal digits ([\d], Unicode). *)
Theorem extract_metadata_period_iff_four_digits : forall fn,
  meta_get (extract_metadata_from_filename fn) k_period <> None <->
  exists pre y rest, fn = pre ++ y ++ rest /\ List.length y = 4%nat /\ forallb is_digit y = true.
Proof.
  intros fn. rewrite <- search_year_iff, metadata_period.
  pose proof (search_year_of_period fn) as Hyp. pose proof (search_month_of_year fn) as Hym.
  destruct (search_yyyy_mm fn) as [[y m]|].
  - split; [intros _; apply Hyp; discriminate | discriminate].
  - destruct (search_year fn) as [year|].
    + destruct (re_search match_month fn) as [month|].
      * split; discriminate.
      * exfalso. apply Hym; discriminate || reflexivity.
    + split; congruence.
Qed.

(** [\d{4}-\d{2}] as a whole string. *)
Definition yyyy_mm_shape (v : str) : bool :=
  match v with
  | [y1; y2; y3; y4; c; m1; m2] => forallb is_digit [y1; y2; y3; y4; m1; m2] && Z.eqb c 45
  | _ => false
  end.

Lemma match_month_some : forall s g, match_month s = Some g ->
  (g = firstn 1 s \/ g = firstn 2 s) /\ List.length g <> O /\ forallb is_digit g = true.
Proof.
  intros s g H. destruct s as [|d1 [|d2 s]]; cbn [match_month] in H; [discriminate| |].
  - destruct (is_digit d1) eqn:E1; [|discriminate]. injection H as <-.
    split; [left; reflexivity|]. split; [discriminate|]. cbn. rewrite E1. reflexivity.
  - destruct (is_digit d1) eqn:E1; [|discriminate].
    destruct (is_digit d2) eqn:E2; injection H as <-.
    + split; [right; reflexivity|]. split; [discriminate|]. cbn. rewrite E1, E2. reflexivity.
    + split; [left; reflexivity|]. split; [discriminate|]. cbn. rewrite E1. reflexivity.
Qed.

Lemma is_digit_sign : forall c, is_digit c = true -> (Z.eqb c 43 || Z.eqb c 45) = false.
Proof.
  intros c H. destruct (Z.eqb_spec c 43) as [->|]; [vm_compute in H; discriminate H|].
  destruct (Z.eqb_spec c 45) as [->|]; [vm_compute in H; discriminate H|]. reflexivity.
Qed.

Lemma month_zfill_shape : forall s g, match_month s = Some g ->
  exists m1 m2, zfill g 2 = [m1; m2] /\ is_digit m1 && is_digit m2 = true.
Proof.
  intros s g H. destruct (match_month_some s g H) as (Hf & Hl & Hd).
  destruct g as [|d1 [|d2 [|d3 g]]]; try (cbn in Hl; congruence).
  - cbn in Hd. rewrite andb_true_r in Hd. exists 48, d1. unfold zfill. cbn [List.length].
    destruct (Z.eqb d1 43 || Z.eqb d1 45) eqn:E.
    + exfalso. rewrite (is_digit_sign d1 Hd) in E. discriminate E.
    + cbn. rewrite Hd. split; reflexivity.
  - cbn in Hd. rewrite andb_true_r in Hd. exists d1, d2. unfold zfill. cbn [List.length].
    destruct (Z.eqb d1 43 || Z.eqb d1 45) eqn:E.
    + exfalso. apply andb_prop in Hd as [Hd _]. rewrite (is_digit_sign d1 Hd) in E.
      discriminate E.
    + cbn. split; [reflexivity | exact Hd].
  - exfalso. destruct Hf as [Hf|Hf]; apply (f_equal (@List.length Z)) in Hf;
      rewrite length_firstn in Hf; cbn [List.length] in Hf; lia.
Qed.

Lemma search_month_zfill : forall s g, re_search match_month s = Some g ->
  exists m1 m2, zfill g 2 = [m1; m2] /\ is_digit m1 && is_digit m2 = true.
Proof.
  intros s g H.
  destruct (search_hit _ match_month (re_search match_month) (re_search_eq _ match_month) s g H)
    as (pre & rest & _ & Hr).
  exact (month_zfill_shape rest g Hr).
Qed.

Ltac digits_true :=
  cbn [forallb] in *;
  repeat match goal with H : _ && _ = true |- _ => apply andb_prop in H as [? ?] end;
  cbn [yyyy_mm_shape forallb app];
  repeat match goal with H : is_digit ?x = true |- context [is_digit ?x] => rewrite H end;
  reflexivity.

(** X8: a [period] value of [extract_metadata_from_filename] always has the shape [DDDD-DD] of decimal digits ([\d], Unicode) (it may be no real month, e.g. [2023-20]). *)
Theorem extract_metadata_period_shape : forall fn v,
  meta_get (extract_metadata_from_filename fn) k_period = Some v ->
  yyyy_mm_shape v = true.
Proof.
  intros fn v H. rewrite metadata_period in H.
  destruct (search_yyyy_mm fn) as [[y m]|] eqn:Ep.
  - injection H as <-. destruct (search_yyyy_mm_some fn y m Ep) as (Hly & Hdy & Hlm & Hdm).
    destruct y as [|y1 [|y2 [|y3 [|y4 [|]]]]]; try discriminate.
    destruct m as [|m1 [|m2 [|]]]; try discriminate.
    digits_true.
  - destruct (search_year fn) as [year|] eqn:Ey; [|discriminate].
    destruct (re_search match_month fn) as [month|] eqn:Em; [|discriminate].
    injection H as <-.
    destruct (search_hit _ match_year search_year search_year_eq fn year Ey) as (pre & rest & _ & Hr).
    destruct (match_year_some _ _ Hr) as (rest' & _ & Hly & Hdy).
    destruct (search_month_zfill fn month Em) as (m1 & m2 & -> & Hdm).
    destruct year as [|y1 [|y2 [|y3 [|y4 [|]]]]]; try discriminate.
    digits_true.
Qed.

(** X9: for a file name without a [DDDD-DD] run whose first digits are a four-digit year [y], the [period] is [y-] followed by the first two digits of [y]: the month pattern [\d{1,2}] matches inside the year. *)
Theorem extract_metadata_month_from_year : forall pre y rest,
  Forall (fun c => is_digit c = false) pre ->
  List.length y = 4%nat -> forallb is_digit y = true ->
  search_yyyy_mm (pre ++ y ++ rest) = None ->
  meta_get (extract_metadata_from_filename (pre ++ y ++ rest)) k_period =
  Some (y ++ [45] ++ firstn 2 y).
Proof.
  intros pre y rest Hpre Hl Hd Hp. rewrite metadata_period, Hp.
  assert (Hskip : forall (A : Type) (m : str -> option A),
            (forall c t, is_digit c = false -> m (c :: t) = None) ->
            forall c t, In c pre -> m (c :: t) = None).
  { intros A m Hm c t Hc. apply Hm. exact (proj1 (Forall_forall _ _) Hpre c Hc). }
  rewrite (search_skip _ match_year search_year search_year_eq pre (y ++ rest)).
  2:{ apply Hskip. intros c t Hc. destruct t as [|? [|? [|? t]]]; try reflexivity.
      cbn [match_year forallb]. rewrite Hc. reflexivity. }
  rewrite (search_year_eq (y ++ rest)), (match_year_digits y rest Hl Hd).
  rewrite (search_skip _ match_month (re_search match_month) (re_search_eq _ match_month) pre).
  2:{ apply Hskip. intros c t Hc. destruct t; cbn; rewrite Hc; reflexivity. }
  rewrite re_search_eq, (match_year_month _ _ (match_year_digits y rest Hl Hd)).
  destruct y as [|y1 [|y2 [|y3 [|y4 [|]]]]]; try discriminate.
  cbn in Hd. apply andb_prop in Hd as [H1 Hd]. unfold zfill. cbn [firstn List.length].
  destruct (Z.eqb y1 43 || Z.eqb y1 45) eqn:E; [|reflexivity].
  exfalso. rewrite (is_digit_sign y1 H1) in E. discriminate E.
Qed.


Lemma extract_metadata_period_shape_witness :
  meta_get (extract_metadata_from_filename (py "report_2023.html")) k_period = Some (py "2023-20") /\
  yyyy_mm_shape (py "2023-20") = true.
Proof.
  split; [vm_compute; reflexivity|].
  apply (extract_metadata_period_shape (py "report_2023.html")). vm_compute. reflexivity.
Defined.

Lemma extract_metadata_month_from_year_witness :
  meta_get (extract_metadata_from_filename (py "report_" ++ py "2023" ++ py ".html")) k_period =
  Some (py "2023" ++ [45] ++ firstn 2 (py "2023")).
Proof.
  apply extract_metadata_month_from_year.
  - repeat constructor.
  - reflexivity.
  - vm_compute. reflexivity.
  - vm_compute. reflexivity.
Defined.


(** X11: a file that cannot be read, or reads as empty, makes [process_file_enhanced] return [False] with only [files_failed] incremented and nothing else done. *)
Theorem unreadable_file_fails : forall sha256 pats reg orc fi s,
  (forall f, find_file (st_fs s) (fi_dir fi) (fi_name fi) = Some f ->
             read_content f = None \/ read_content f = Some []) ->
  process_file_enhanced sha256 pats reg orc fi s =
  (Some false, with_stats (inc_failed (st_stats s)) s).
Proof.
  intros sha256 pats reg orc fi s H.
  unfold process_file_enhanced, try_except, process_file_body, read_file_content.
  cbv [bind ret bump modify].
  destruct (find_file (st_fs s) (fi_dir fi) (fi_name fi)) as [f|] eqn:Ef; [|reflexivity].
  destruct (H f eq_refl) as [-> | ->]; reflexivity.
Qed.

(** X12: [import_reports(..., dry_run=True)] changes no file (apart from creating the archive directory), report, audit action or counter; it returns [False] when the source directory is missing, raises when the archive directory cannot be created, and returns [True] otherwise. *)
Theorem dry_run_changes_nothing : forall sha256 pats reg orc source_exists mkdir_ok broker s,
  import_reports sha256 pats reg orc source_exists mkdir_ok broker true s =
  (if negb source_exists then Some false else if negb mkdir_ok then None else Some true, s).
Proof.
  intros sha256 pats reg orc source_exists mkdir_ok broker s.
  unfold import_reports, scan_inbox.
  destruct source_exists, mkdir_ok; cbv [bind get ret raise negb]; cbv beta iota;
    try reflexivity.
  destruct (scan_directory (st_fs s) Inbox); reflexivity.
Qed.

(** The effects that leave [files_processed] alone. *)
Definition keeps_processed {A} (m : M A) : Prop :=
  forall s, files_processed (st_stats (snd (m s))) = files_processed (st_stats s).

Lemma kp_ret : forall A (a : A), keeps_processed (ret a).
Proof. intros A a s. reflexivity. Qed.

Lemma kp_raise : forall A, keeps_processed (@raise A).
Proof. intros A s. reflexivity. Qed.

Lemma kp_get : keeps_processed get.
Proof. intros s. reflexivity. Qed.

Lemma kp_bind : forall A B (m : M A) (f : A -> M B),
  keeps_processed m -> (forall a, keeps_processed (f a)) -> keeps_processed (bind m f).
Proof.
  intros A B m f Hm Hf s. unfold bind.
  destruct (m s) as [[a|] s'] eqn:E; cbn.
  - rewrite Hf. specialize (Hm s). rewrite E in Hm. exact Hm.
  - specialize (Hm s). rewrite E in Hm. exact Hm.
Qed.

Lemma kp_try : forall A (m h : M A),
  keeps_processed m -> keeps_processed h -> keeps_processed (try_except m h).
Proof.
  intros A m h Hm Hh s. unfold try_except. specialize (Hm s).
  destruct (m s) as [[a|] s'] eqn:E; cbn in *; [exact Hm | rewrite Hh; exact Hm].
Qed.

Lemma kp_emit : forall a, keeps_processed (emit a).
Proof. intros a s. reflexivity. Qed.

Lemma kp_bump : forall f, (forall t, files_processed (f t) = files_processed t) ->
  keeps_processed (bump f).
Proof. intros f Hf s. apply Hf. Qed.

Lemma kp_inc_failed : forall t, files_processed (inc_failed t) = files_processed t.
Proof. reflexivity. Qed.
Lemma kp_inc_success : forall t, files_processed (inc_success t) = files_processed t.
Proof. reflexivity. Qed.
Lemma kp_inc_skipped : forall t, files_processed (inc_skipped t) = files_processed t.
Proof. reflexivity. Qed.
Lemma kp_inc_unknown : forall t, files_processed (inc_unknown t) = files_processed t.
Proof. reflexivity. Qed.
Lemma kp_add_error : forall e t, files_processed (add_error e t) = files_processed t.
Proof. reflexivity. Qed.

Lemma kp_read_file_content : forall d n, keeps_processed (read_file_content d n).
Proof. intros d n s. reflexivity. Qed.

Section KeepsProcessed.
Variable sha256 : str -> str.
Variable pats : pattern_table.
Variable reg : registry.
Variable orc : str -> oracle.

Lemma kp_do_rename : forall src n dst, keeps_processed (do_rename orc src n dst).
Proof.
  intros src n dst s. unfold do_rename.
  destruct (if rename_ok (orc n) then _ else None); reflexivity.
Qed.

Lemma kp_insert_report : forall b p n a h, keeps_processed (insert_report orc b p n a h).
Proof. intros b p n a h s. unfold insert_report. destruct (insert_ok (orc n)); reflexivity. Qed.

Lemma kp_update_report_parsed_data : forall n id d,
  keeps_processed (update_report_parsed_data orc n id d).
Proof.
  intros n id d s. unfold update_report_parsed_data. destruct (update_ok (orc n)); reflexivity.
Qed.

Create HintDb keeps.
Hint Resolve kp_ret kp_raise kp_get kp_emit kp_read_file_content kp_do_rename
  kp_insert_report kp_update_report_parsed_data kp_inc_failed kp_inc_success
  kp_inc_skipped kp_inc_unknown kp_add_error : keeps.
Hint Extern 1 (keeps_processed (bump _)) => apply kp_bump : keeps.

Ltac keeps_step :=
  match goal with
  | |- keeps_processed (bind _ _) => apply kp_bind; [| intros ?]
  | |- keeps_processed (try_except _ _) => apply kp_try
  | |- keeps_processed (match ?x with _ => _ end) => destruct x
  | |- keeps_processed (if ?x then _ else _) => destruct x
  | |- keeps_processed ((fun _ => _) _) => cbv beta
  | |- _ => solve [eauto with keeps]
  end.

Ltac keeps :=
  cbv beta zeta delta [process_file_enhanced process_file_body is_exact_duplicate
    get_report_by_triple is_semantic_duplicate _parse_file_content log_import_file
    log_import_event move_to_duplicate_archive check_period_mismatch insert_stage];
  repeat keeps_step.

Lemma kp_process_file_enhanced : forall fi,
  keeps_processed (process_file_enhanced sha256 pats reg orc fi).
Proof. intros fi. keeps. Qed.
End KeepsProcessed.

Lemma process_file_enhanced_some : forall sha256 pats reg orc fi s,
  fst (process_file_enhanced sha256 pats reg orc fi s) <> None.
Proof.
  intros sha256 pats reg orc fi s. unfold process_file_enhanced, try_except.
  destruct (process_file_body sha256 pats reg orc fi s) as [[b|] s']; cbn; discriminate.
Qed.

Lemma process_all_count : forall sha256 pats reg orc L s,
  let r := process_all sha256 pats reg orc L s in
  fst r = Some tt /\
  files_processed (st_stats (snd r)) = files_processed (st_stats s) + Z.of_nat (List.length L).
Proof.
  intros sha256 pats reg orc L. induction L as [|fi L IH]; intros s r; subst r.
  - cbn. split; [reflexivity | lia].
  - cbn [process_all]. cbv [bind bump modify].
    pose proof (process_file_enhanced_some sha256 pats reg orc fi s) as Hs.
    pose proof (kp_process_file_enhanced sha256 pats reg orc fi s) as Hk.
    destruct (process_file_enhanced sha256 pats reg orc fi s) as [[b|] s1] eqn:E;
      [|cbn in Hs; congruence].
    cbn [fst snd] in Hk |- *.
    destruct (IH (with_stats (inc_processed (st_stats s1)) s1)) as [H1 H2].
    destruct (process_all sha256 pats reg orc L (with_stats (inc_processed (st_stats s1)) s1))
      as [o s2] eqn:E2.
    cbn [fst snd] in H1, H2 |- *. split; [exact H1|].
    rewrite H2. cbn. rewrite Hk. lia.
Qed.

(** X13: without a broker filter, when the source directory exists and the archive directory can be created, [import_reports] returns [True] and raises [files_processed] by the number of files [scan_inbox] finds, whatever each file's outcome. *)
Theorem import_counts_processed : forall sha256 pats reg orc s,
  let r := import_reports sha256 pats reg orc true true None false s in
  fst r = Some true /\
  files_processed (st_stats (snd r)) =
  files_processed (st_stats s) + Z.of_nat (List.length (scan_directory (st_fs s) Inbox)).
Proof.
  intros sha256 pats reg orc s r. subst r.
  unfold import_reports, scan_inbox. cbv [bind get ret raise negb]. cbv beta iota. cbn [fst snd].
  destruct (scan_directory (st_fs s) Inbox) as [|fi L] eqn:Escan.
  - cbn. split; [reflexivity | lia].
  - destruct (process_all_count sha256 pats reg orc (fi :: L) s) as [H1 H2].
    destruct (process_all sha256 pats reg orc (fi :: L) s) as [o s1] eqn:E.
    cbn [fst snd] in H1, H2. subst o. cbv [emit modify]. cbn. split; [reflexivity | exact H2].
Qed.

(** X14: with a broker filter [b] (a non-empty name: [if broker:] ignores an empty one), an inbox file whose name-based broker differs from [b] stays in the inbox and no action of the run names it. *)
Theorem broker_filter_leaves_others : forall sha256 pats reg orc source_exists mkdir_ok b s f,
  b <> [] ->
  In (Inbox, f) (st_fs s) ->
  str_eqb (detect_broker_from_filename (fname f)) b = false ->
  let r := import_reports sha256 pats reg orc source_exists mkdir_ok (Some b) false s in
  In (Inbox, f) (st_fs (snd r)) /\
  exists new, st_trace (snd r) = st_trace s ++ new /\
              Forall (fun a => mentions (fname f) a = false) new.
Proof.
  intros sha256 pats reg orc source_exists mkdir_ok b s f Hne Hf Hb r. subst r.
  destruct b as [|c b]; [congruence|].
  unfold import_reports, scan_inbox.
  destruct source_exists, mkdir_ok; cbv [bind get ret raise negb]; cbv beta iota; cbn [fst snd];
    try (split; [exact Hf|]; exists []; split; [symmetry; apply app_nil_r | constructor]).
  destruct (scan_directory (st_fs s) Inbox) as [|fi0 L0] eqn:Escan.
  - split; [exact Hf|]. exists []. split; [symmetry; apply app_nil_r | constructor].
  - set (L := filter _ (fi0 :: L0)).
    assert (HL : Forall (fun fi => str_eqb (fi_name fi) (fname f) = false) L).
    { apply Forall_forall. intros fi Hfi. subst L. apply filter_In in Hfi as [_ Hk].
      apply andb_prop in Hk as [_ Hk].
      destruct (str_eqb (fi_name fi) (fname f)) eqn:E; [|reflexivity].
      apply str_eqb_eq in E. rewrite E in Hk. congruence. }
    destruct (process_all_frame sha256 pats reg orc L s (fname f) (Inbox, f) HL Hf eq_refl)
      as [He (new & Ht & Hn)].
    destruct (process_all sha256 pats reg orc L s) as [[u|] s1] eqn:E; cbn [fst snd] in *.
    + cbn [emit modify bind ret fst snd st_fs st_trace with_trace].
      split; [exact He|]. exists (new ++ [AOpLog]).
      split; [rewrite Ht, app_assoc; reflexivity|].
      apply Forall_app. split; [exact Hn | repeat constructor].
    + split; [exact He|]. exists new. split; assumption.
Qed.



Definition undecodable_file : file :=
  {| fname := py "broken.html"; fsize := 5; fregular := true; ftext := None |}.

Definition st_undecodable : state :=
  {| st_fs := [(Inbox, undecodable_file)]; st_reports := []; st_trace := [];
     st_stats := stats0 |}.

Lemma unreadable_file_fails_witness :
  process_file_enhanced (fun t => t) [] [] orc_ok (get_file_info Inbox undecodable_file)
    st_undecodable = (Some false, with_stats (inc_failed stats0) st_undecodable).
Proof.
  apply (unreadable_file_fails (fun t => t) [] [] orc_ok (get_file_info Inbox undecodable_file)
           st_undecodable).
  intros f Hf. vm_compute in Hf. injection Hf as <-. left. vm_compute. reflexivity.
Defined.

Lemma broker_filter_leaves_others_witness :
  In (Inbox, plain_file)
     (st_fs (snd (import_reports (fun t => t) [] [] orc_ok true true (Some (py "sber")) false
                                 st_plain))).
Proof.
  exact (proj1 (broker_filter_leaves_others (fun t => t) [] [] orc_ok true true (py "sber") st_plain
                  plain_file ltac:(discriminate) ltac:(left; reflexivity)
                  ltac:(vm_compute; reflexivity))).
Defined.

(** The values a parser may put in its result dict, as far as
    [_serialize_parsed_data] tells them apart: [date] and [datetime] objects
    (with their [isoformat()]), dicts, lists, and any other value. *)
Local Set Warnings "-register-all".
Inductive jvalue :=
| JStr (s : str)
| JDate (iso : str)
| JDateTime (iso : str)
| JNone
| JNum (z : Z)
| JDict (d : list (str * jvalue))
| JList (l : list jvalue).

(** [isinstance(value, (date, datetime))] *)
Definition is_date (v : jvalue) : bool :=
  match v with JDate _ | JDateTime _ => true | _ => false end.

(** A list item: [item.isoformat() if isinstance(item, (date, datetime)) else item]. *)
Definition serialize_item (item : jvalue) : jvalue :=
  match item with
  | JDate iso | JDateTime iso => JStr iso
  | _ => item
  end.

Fixpoint serialize_value (v : jvalue) : jvalue :=
  match v with
  | JDate iso | JDateTime iso => JStr iso
  | JDict d =>
      JDict ((fix serialize_dict (d : list (str * jvalue)) : list (str * jvalue) :=
                match d with
                | [] => []
                | (k, v') :: d' => (k, serialize_value v') :: serialize_dict d'
                end) d)
  | JList l => JList (map serialize_item l)
  | _ => v
  end.

(** [_serialize_parsed_data]: [serialized[key] = ...] for each item of a dict
    (whose keys are distinct), in order. *)
Definition _serialize_parsed_data (parsed_data : list (str * jvalue)) : list (str * jvalue) :=
  map (fun kv => (fst kv, serialize_value (snd kv))) parsed_data.

Lemma serialize_dict_map : forall d,
  (fix serialize_dict (d : list (str * jvalue)) : list (str * jvalue) :=
     match d with
     | [] => []
     | (k, v') :: d' => (k, serialize_value v') :: serialize_dict d'
     end) d = _serialize_parsed_data d.
Proof. induction d as [|[k v] d IH]; cbn; [reflexivity | rewrite IH; reflexivity]. Qed.

Lemma serialize_value_eq : forall v, serialize_value v =
  match v with
  | JDate iso | JDateTime iso => JStr iso
  | JDict d => JDict (_serialize_parsed_data d)
  | JList l => JList (map serialize_item l)
  | _ => v
  end.
Proof. destruct v; try reflexivity. cbn. rewrite serialize_dict_map. reflexivity. Qed.

(** Induction on values, through the entries of dicts and the items of lists. *)
Section JInd.
Variable P : jvalue -> Prop.
Hypothesis HStr : forall s, P (JStr s).
Hypothesis HDate : forall iso, P (JDate iso).
Hypothesis HDateTime : forall iso, P (JDateTime iso).
Hypothesis HNone : P JNone.
Hypothesis HNum : forall z, P (JNum z).
Hypothesis HDict : forall d, Forall (fun kv => P (snd kv)) d -> P (JDict d).
Hypothesis HList : forall l, Forall P l -> P (JList l).

Fixpoint jvalue_ind' (v : jvalue) : P v :=
  match v with
  | JStr s => HStr s
  | JDate iso => HDate iso
  | JDateTime iso => HDateTime iso
  | JNone => HNone
  | JNum z => HNum z
  | JDict d =>
      HDict d ((fix go (d : list (str * jvalue)) : Forall (fun kv => P (snd kv)) d :=
                  match d with
                  | [] => Forall_nil _
                  | kv :: d' => @Forall_cons _ (fun kv => P (snd kv)) kv d'
                                  (jvalue_ind' (snd kv)) (go d')
                  end) d)
  | JList l =>
      HList l ((fix go (l : list jvalue) : Forall P l :=
                  match l with
                  | [] => Forall_nil _
                  | x :: l' => Forall_cons x (jvalue_ind' x) (go l')
                  end) l)
  end.
End JInd.

(** No [date] left where [_serialize_parsed_data] looks: at any value of a
    dict reached through dicts, and at the items of lists. *)
Fixpoint serialized_ok (v : jvalue) : Prop :=
  match v with
  | JDate _ | JDateTime _ => False
  | JDict d =>
      (fix dict_ok (d : list (str * jvalue)) : Prop :=
         match d with
         | [] => True
         | (_, v') :: d' => serialized_ok v' /\ dict_ok d'
         end) d
  | JList l => Forall (fun item => is_date item = false) l
  | _ => True
  end.

Lemma serialize_value_ok : forall v, serialized_ok (serialize_value v).
Proof.
  apply jvalue_ind'; try (intros; exact I).
  - intros d H. rewrite serialize_value_eq. cbn. unfold _serialize_parsed_data. induction H as [|[k v] d Hv _ IH]; cbn; [exact I|].
    split; [exact Hv | exact IH].
  - intros l _. rewrite serialize_value_eq. cbn.
    apply Forall_forall. intros item Hi. apply in_map_iff in Hi as (x & <- & _).
    destruct x; reflexivity.
Qed.

(** X15: [_serialize_parsed_data] keeps the keys in order and leaves no date at the top level, inside nested dicts, or as a direct item of a list. *)
Theorem serialize_parsed_data_no_dates : forall parsed_data,
  map fst (_serialize_parsed_data parsed_data) = map fst parsed_data /\
  Forall (fun kv => serialized_ok (snd kv)) (_serialize_parsed_data parsed_data).
Proof.
  intros d. unfold _serialize_parsed_data. rewrite map_map. split; [reflexivity|].
  apply Forall_forall. intros kv Hkv. apply in_map_iff in Hkv as (x & <- & _).
  apply serialize_value_ok.
Qed.

Lemma serialize_item_idem : forall x, serialize_item (serialize_item x) = serialize_item x.
Proof. destruct x; reflexivity. Qed.

Lemma serialize_value_idem : forall v, serialize_value (serialize_value v) = serialize_value v.
Proof.
  apply jvalue_ind'; try reflexivity.
  - intros d H. rewrite (serialize_value_eq (JDict d)), serialize_value_eq. f_equal.
    unfold _serialize_parsed_data. rewrite map_map. apply map_ext_in. intros [k v] Hin. cbn.
    pose proof (proj1 (Forall_forall _ _) H (k, v) Hin) as Hv. cbn in Hv. rewrite Hv.
    reflexivity.
  - intros l _. rewrite (serialize_value_eq (JList l)), serialize_value_eq. f_equal.
    rewrite map_map. apply map_ext. apply serialize_item_idem.
Qed.

(** X16: [_serialize_parsed_data] is idempotent. *)
Theorem serialize_parsed_data_idempotent : forall parsed_data,
  _serialize_parsed_data (_serialize_parsed_data parsed_data) = _serialize_parsed_data parsed_data.
Proof.
  intros d. unfold _serialize_parsed_data. rewrite map_map. apply map_ext.
  intros [k v]. cbn. rewrite serialize_value_idem. reflexivity.
Qed.

(** X17: a dict that is an item of a list value is kept as it is by [_serialize_parsed_data], dates inside it included. *)
Theorem serialize_parsed_data_list_dicts_kept : forall parsed_data k l sub,
  In (k, JList l) parsed_data -> In (JDict sub) l ->
  exists l', In (k, JList l') (_serialize_parsed_data parsed_data) /\ In (JDict sub) l'.
Proof.
  intros d k l sub Hk Hsub. exists (map serialize_item l). split.
  - unfold _serialize_parsed_data. apply in_map_iff. exists (k, JList l). split; [|exact Hk].
    rewrite serialize_value_eq. reflexivity.
  - apply in_map_iff. exists (JDict sub). split; [reflexivity | exact Hsub].
Qed.

Definition rows_data : list (str * jvalue) :=
  [(py "rows", JList [JDict [(py "d", JDate (py "2023-07-01"))]])].

Lemma serialize_parsed_data_list_dicts_kept_witness :
  exists l', In (py "rows", JList l') (_serialize_parsed_data rows_data) /\
             In (JDict [(py "d", JDate (py "2023-07-01"))]) l'.
Proof.
  apply (serialize_parsed_data_list_dicts_kept rows_data (py "rows")
           [JDict [(py "d", JDate (py "2023-07-01"))]]).
  - left. reflexivity.
  - left. reflexivity.
Defined.

(** X18: an exact duplicate (its hash lookup succeeds and matches) whose move to exact_duplicates/ fails is still counted as skipped and reported as a success: the file stays where it was, and the [duplicate_detected] row and the [exact_duplicate] event are still written. *)
Theorem exact_duplicate_move_failure_skipped : forall sha256 pats reg orc fi s f c,
  let n := fi_name fi in
  find_file (st_fs s) (fi_dir fi) n = Some f ->
  read_content f = Some c -> c <> [] ->
  hash_lookup_ok (orc n) = true ->
  existsb (fun r => str_eqb (r_hash r) (sha256 c)) (st_reports s) = true ->
  rename_ok (orc n) = false ->
  let r := process_file_enhanced sha256 pats reg orc fi s in
  fst r = Some true /\
  st_fs (snd r) = st_fs s /\ st_reports (snd r) = st_reports s /\
  files_skipped (st_stats (snd r)) = files_skipped (st_stats s) + 1 /\
  files_failed (st_stats (snd r)) = files_failed (st_stats s) /\
  st_trace (snd r) = st_trace s ++
    [AHashQuery (sha256 c); ARename (fi_dir fi) ExactDuplicates n false;
     ADbLog (py "duplicate_detected") n (dblog_ok (orc n));
     AEvent (py "exact_duplicate") n].
Proof.
  intros sha256 pats reg orc fi s f c n Hf Hr Hc Hl Hx Hren r. subst r n.
  unfold_pipeline. rewrite Hf, Hr, Hl. destruct c as [|x c]; [congruence|].
  split_matches_h; kill_literal_branches.
  all: cbn -[detect_broker_tiered extract_period_from_filename
             extract_account_from_filename is_broker_supported py firstn].
  all: simpl_state.
  all: repeat split; try lia.
Qed.

Definition orc_no_rename (_ : str) : oracle :=
  {| rename_ok := false; insert_ok := true; update_ok := true; dblog_ok := true;
     hash_lookup_ok := true; filename_lookup_ok := true; recheck_lookup_ok := true |}.

Lemma exact_duplicate_move_failure_skipped_witness :
  fst (process_file_enhanced (fun t => t) [] [] orc_no_rename fi_copy st_copy) = Some true.
Proof.
  destruct (exact_duplicate_move_failure_skipped (fun t => t) [] [] orc_no_rename fi_copy st_copy
              copy_file (py "hello") ltac:(vm_compute; reflexivity) ltac:(vm_compute; reflexivity)
              ltac:(discriminate) ltac:(reflexivity) ltac:(vm_compute; reflexivity)
              ltac:(reflexivity)) as [H _].
  exact H.
Defined.


(** ** Query building in [BrokerReportOperations] *)

(** A query parameter as psycopg2 receives it. *)
Inductive sqlparam := PStr (s : str) | PInt (z : Z).

(** The [%s] placeholders psycopg2 fills, read left to right. *)
Fixpoint placeholders (q : str) : nat :=
  match q with
  | [] => O
  | c :: q' =>
      match q' with
      | d :: q'' => if Z.eqb c 37 && Z.eqb d 115 then S (placeholders q'') else placeholders q'
      | [] => O
      end
  end.

Definition nl : str := [10].

(** [sep.join(l)] *)
Fixpoint join (sep : str) (l : list str) : str :=
  match l with
  | [] => []
  | [x] => x
  | x :: l' => x ++ sep ++ join sep l'
  end.

(** [if value: conditions.append(cond); params.append(param(value))]; [None]
    and the empty string are falsy. *)
Definition add_filter (cp : list str * list sqlparam) (value : option str) (cond : str)
  (param : str -> sqlparam) : list str * list sqlparam :=
  match value with
  | Some ((_ :: _) as v) => (fst cp ++ [cond], snd cp ++ [param v])
  | _ => cp
  end.

(** [list_reports]: the query and the parameters handed to [execute_query]. *)
Definition list_reports (broker period status account search_account : option str)
  (limit offset : Z) : str * list sqlparam :=
  let cp := ([], []) in
  let cp := add_filter cp broker (py "broker = %s") PStr in
  let cp := add_filter cp period (py "period = %s") PStr in
  let cp := add_filter cp status (py "processing_status = %s") PStr in
  let cp := add_filter cp account (py "account = %s") PStr in
  let cp := add_filter cp search_account (py "account ILIKE %s")
              (fun v => PStr (py "%" ++ v ++ py "%")) in
  let '(conditions, params) := cp in
  let where_clause :=
    match conditions with [] => [] | _ => py "WHERE " ++ join (py " AND ") conditions end in
  let params := params ++ [PInt limit; PInt offset] in
  let query :=
    nl ++ py "                SELECT id, broker, account, period, report_date, client_name, "
    ++ nl ++ py "                       file_name, processing_status, created_at, updated_at"
    ++ nl ++ py "                FROM broker_reports "
    ++ nl ++ py "                " ++ where_clause
    ++ nl ++ py "                ORDER BY created_at DESC"
    ++ nl ++ py "                LIMIT %s OFFSET %s"
    ++ nl ++ py "            " in
  (query, params).

Definition truthy_str (o : option str) : bool :=
  match o with Some (_ :: _) => true | _ => false end.

(** [update_report_status]: the statement and the parameters handed to
    [execute_update]; [dumps] is [json.dumps]. *)
Definition update_report_status (dumps : pydict -> str) (report_id : Z) (status : str)
  (parsed_data : option pydict) (error_log parser_version : option str) : str * list sqlparam :=
  let query :=
    nl ++ py "                UPDATE broker_reports "
    ++ nl ++ py "                SET processing_status = %s, updated_at = NOW()"
    ++ nl ++ py "            " in
  let params := [PStr status] in
  let '(query, params) :=
    match parsed_data with
    | Some ((_ :: _) as d) => (query ++ py ", parsed_data = %s", params ++ [PStr (dumps d)])
    | _ => (query, params)
    end in
  let '(query, params) :=
    match error_log with
    | Some ((_ :: _) as e) => (query ++ py ", error_log = %s", params ++ [PStr e])
    | _ => (query, params)
    end in
  let '(query, params) :=
    match parser_version with
    | Some ((_ :: _) as v) => (query ++ py ", parser_version = %s", params ++ [PStr v])
    | _ => (query, params)
    end in
  let query := if str_eqb status (py "parsed") then query ++ py ", processed_at = NOW()"
               else query in
  (query ++ py " WHERE id = %s", params ++ [PInt report_id]).

Ltac str_opt_cases x := destruct x as [[|? ?]|].

(** X19: the query [list_reports] hands to [execute_query] has exactly as many [%s] placeholders as there are parameters, the parameters end with [limit] and [offset], and a [WHERE] clause is present exactly when one of the filters is a non-empty string. *)
Theorem list_reports_placeholders : forall broker period status account search_account limit offset,
  let r := list_reports broker period status account search_account limit offset in
  placeholders (fst r) = List.length (snd r) /\
  (exists filters, snd r = filters ++ [PInt limit; PInt offset]) /\
  contains (fst r) (py "WHERE") =
    (truthy_str broker || truthy_str period || truthy_str status || truthy_str account
     || truthy_str search_account).
Proof.
  intros broker period status account search_account limit offset r. subst r.
  str_opt_cases broker; str_opt_cases period; str_opt_cases status; str_opt_cases account;
    str_opt_cases search_account;
    (split; [vm_compute; reflexivity|]);
    (split; [eexists; reflexivity | vm_compute; reflexivity]).
Qed.

(** X20: the statement [update_report_status] hands to [execute_update] has exactly as many [%s] placeholders as there are parameters, the parameters start with the status and end with the report id, and [processed_at] is set exactly when the status is [parsed]. *)
Theorem update_report_status_placeholders : forall dumps report_id status parsed_data
                                                   error_log parser_version,
  let r := update_report_status dumps report_id status parsed_data error_log parser_version in
  placeholders (fst r) = List.length (snd r) /\
  (exists sets, snd r = PStr status :: sets ++ [PInt report_id]) /\
  contains (fst r) (py "processed_at") = str_eqb status (py "parsed").
Proof.
  intros dumps report_id status parsed_data error_log parser_version r. subst r.
  unfold update_report_status.
  destruct (str_eqb status (py "parsed"));
  destruct parsed_data as [[|? ?]|]; str_opt_cases error_log; str_opt_cases parser_version;
    (split; [vm_compute; reflexivity|]);
    (split; [eexists; reflexivity | vm_compute; reflexivity]).
Qed.
